(** * A2C with sharpness-aware minimisation and the HERO curvature term

  A shallow embedding of [A2C.train]
  (stable_baselines3/a2c/a2c.py) and the properties of its three
  optimisation strategies, [base], [SAM] and [HERO].

  Modelling conventions.
  - A float is idealised as a real number; NaN, infinities and rounding
    are outside the model.
  - A tensor is the list of its elements.  Every tensor the training
    step computes with is either one-dimensional (values, log-probs,
    advantages, returns) or only used through element-wise operations
    and full reductions (parameters and their gradients), so the
    flattened view loses nothing but multi-axis broadcasting.
  - Python exceptions are results [Raise e]; an exception leaves the
    mutations done before it in place, so effectful code is a state
    monad whose state survives a [Raise].
  - Automatic differentiation is a pair of oracles of the policy: the
    gradient of the assembled loss at a parameter point, and the
    vector-Jacobian product through that gradient (double backward). *)

From Stdlib Require Import Reals Lra Psatz List String Ascii Bool Arith Lia.
Import ListNotations.

Open Scope R_scope.

(** The float literals [1e-6], [1e-8] and [1e-12]. *)
Definition float_1e_6 : R := / 10 ^ 6.
Definition float_1e_8 : R := / 10 ^ 8.
Definition float_1e_12 : R := / 10 ^ 12.

(** ** Python results and the exception/state monad *)

Module Py.

Inductive exn : Type :=
| AttributeError   (* attribute access on None, or on a Python float *)
| TypeError        (* unsupported operand types *)
| RuntimeError.    (* raised by torch *)

Inductive result (A : Type) : Type :=
| Ok (a : A)
| Raise (e : exn).

Arguments Ok {A} a.
Arguments Raise {A} e.

Definition rbind {A B} (r : result A) (k : A -> result B) : result B :=
  match r with
  | Ok a => k a
  | Raise e => Raise e
  end.

(** Statements run on a mutable world [S]; the world is returned also
    when the statement raises. *)
Definition M (S A : Type) : Type := S -> result A * S.

Definition ret {S A} (a : A) : M S A := fun s => (Ok a, s).

Definition bind {S A B} (m : M S A) (k : A -> M S B) : M S B :=
  fun s =>
    match m s with
    | (Ok a, s') => k a s'
    | (Raise e, s') => (Raise e, s')
    end.

Definition raise {S A} (e : exn) : M S A := fun s => (Raise e, s).
Definition get {S} : M S S := fun s => (Ok s, s).
Definition gets {S A} (f : S -> A) : M S A := fun s => (Ok (f s), s).
Definition modify {S} (f : S -> S) : M S unit := fun s => (Ok tt, f s).
Definition lift {S A} (r : result A) : M S A := fun s => (r, s).

End Py.

Declare Scope py_scope.
Delimit Scope py_scope with py.

Notation "x <- m ;; k" := (Py.bind m (fun x => k))
(at level 61, m at next level, right associativity) : py_scope.
Notation "m ;;; k" := (Py.bind m (fun _ => k))
(at level 61, right associativity) : py_scope.
Notation "x <~ r ;; k" := (Py.rbind r (fun x => k))
(at level 61, r at next level, right associativity) : py_scope.

(** ** Tensors *)

Module Tensor.

Definition t : Type := list R.

Definition numel (a : t) : nat := List.length a.

Fixpoint sum (a : t) : R :=
  match a with
  | [] => 0
  | x :: a' => x + sum a'
  end.

(** [a.mean()] *)
Definition mean (a : t) : R := sum a / INR (numel a).

Definition neg (a : t) : t := map Ropp a.
Definition abs (a : t) : t := map Rabs a.
Definition square (a : t) : t := map (fun x => x * x) a.
(** [a * c], [a + c] and [a / c] for a Python scalar [c] *)
Definition muls (a : t) (c : R) : t := map (fun x => x * c) a.
Definition adds (a : t) (c : R) : t := map (fun x => x + c) a.
Definition divs (a : t) (c : R) : t := map (fun x => x / c) a.
Definition zeros_like (a : t) : t := map (fun _ => 0) a.

(** [a.std()]: torch's default is the unbiased estimator (Bessel's
    correction). *)
Definition var (a : t) : R :=
  sum (square (adds a (- mean a))) / (INR (numel a) - 1).
Definition std (a : t) : R := sqrt (var a).

(** Broadcasting of one-dimensional shapes. *)
Definition broadcast_shape (n m : nat) : option nat :=
  if Nat.eqb n m then Some n
  else if Nat.eqb n 1 then Some m
  else if Nat.eqb m 1 then Some n
  else None.

Definition expand (a : t) (n : nat) : option t :=
  if Nat.eqb (numel a) n then Some a
  else match a with
       | [x] => Some (repeat x n)
       | _ => None
       end.

Fixpoint zip_with (f : R -> R -> R) (a b : t) : t :=
  match a, b with
  | x :: a', y :: b' => f x y :: zip_with f a' b'
  | _, _ => []
  end.

(** An element-wise binary operation; sizes that do not broadcast make
    torch raise a RuntimeError. *)
Definition binop (f : R -> R -> R) (a b : t) : Py.result t :=
  match broadcast_shape (numel a) (numel b) with
  | Some n =>
      match expand a n, expand b n with
      | Some a', Some b' => Py.Ok (zip_with f a' b')
      | _, _ => Py.Raise Py.RuntimeError
      end
  | None => Py.Raise Py.RuntimeError
  end.

Definition add : t -> t -> Py.result t := binop Rplus.
Definition sub : t -> t -> Py.result t := binop Rminus.
Definition mul : t -> t -> Py.result t := binop Rmult.

(** In-place [a += b]: [b] is broadcast to the shape of [a], which
    cannot change. *)
Definition iadd (a b : t) : Py.result t :=
  match expand b (numel a) with
  | Some b' => Py.Ok (zip_with Rplus a b')
  | None => Py.Raise Py.RuntimeError
  end.

(** [F.mse_loss(input, target)] and [MSELoss()(input, target)], with
    the default reduction [mean]. *)
Definition mse_loss (input target : t) : Py.result R :=
  (d <~ sub input target ;; Py.Ok (mean (square d)))%py.

End Tensor.

(** ** torch: parameters, gradients, optimisers *)

(** A Python value that is a tensor or [None]. *)
Definition PyTensor : Type := option Tensor.t.

(** [torch.nn.Parameter] as seen through [named_parameters()]. *)
Record Param : Type := mkParam {
  name : string;
  data : Tensor.t;
  grad : PyTensor
}.

(** [policy.named_parameters()], in enumeration order. *)
Definition Store : Type := list Param.

Definition set_data (d : Tensor.t) (p : Param) : Param :=
  mkParam (name p) d (grad p).
Definition set_grad (g : PyTensor) (p : Param) : Param :=
  mkParam (name p) (data p) g.

(** The parameter point: the current value of every parameter. *)
Definition theta (s : Store) : list Tensor.t := map data s.
Definition grads (s : Store) : list PyTensor := map grad s.

(** [for i, p in enumerate(params): <mutate p>].  When the body raises
    at index [i], the parameters before [i] keep their mutation. *)
Fixpoint for_each_from (f : nat -> Param -> Py.result Param) (i : nat)
  (s : Store) : Py.result unit * Store :=
  match s with
  | [] => (Py.Ok tt, [])
  | p :: s' =>
      match f i p with
      | Py.Ok p' =>
          let (r, s'') := for_each_from f (S i) s' in (r, p' :: s'')
      | Py.Raise e => (Py.Raise e, p :: s')
      end
  end.

Definition for_each (f : nat -> Param -> Py.result Param)
  : Py.M Store unit := for_each_from f 0.

(** [optimizer.zero_grad()]: gradients are cleared to [None]. *)
Definition zero_grad : Py.M Store unit :=
  Py.modify (map (set_grad None)).

(** Autograd's accumulation of a freshly computed gradient [g] into
    [p.grad]; [None] means the parameter is not in the graph. *)
Definition accumulate (g : PyTensor) (p : Param) : Py.result Param :=
  match g with
  | None => Py.Ok p
  | Some g =>
      match grad p with
      | None => Py.Ok (set_grad (Some g) p)
      | Some a => (a' <~ Tensor.iadd a g ;; Py.Ok (set_grad (Some a') p))%py
      end
  end.

(** [scalar.backward()] for a scalar whose gradient with respect to the
    [i]-th parameter is [dtheta i]. *)
Definition backward (dtheta : nat -> PyTensor) : Py.M Store unit :=
  for_each (fun i p => accumulate (dtheta i) p).

(** The store in which [p.grad] is [dtheta i] for the [i]-th parameter:
    what [backward] leaves when it starts from cleared gradients. *)
Fixpoint set_grads_from (dtheta : nat -> PyTensor) (i : nat) (s : Store)
  : Store :=
  match s with
  | [] => []
  | p :: s' => set_grad (dtheta i) p :: set_grads_from dtheta (S i) s'
  end.

(** Sum of the squared elements of all populated gradients. *)
Fixpoint sum_sq_grads (s : Store) : R :=
  match s with
  | [] => 0
  | p :: s' =>
      match grad p with
      | Some g => Tensor.sum (Tensor.square g) + sum_sq_grads s'
      | None => sum_sq_grads s'
      end
  end.

Definition total_norm (s : Store) : R := sqrt (sum_sq_grads s).

(** [torch.nn.utils.clip_grad_norm_(parameters, max_norm)]: every
    populated gradient is multiplied by
    [min(1, max_norm / (total_norm + 1e-6))]. *)
Definition clip_coef (max_norm : R) (s : Store) : R :=
  Rmin 1 (max_norm / (total_norm s + float_1e_6)).

Definition scale_grads (c : R) (s : Store) : Store :=
  map (fun p => set_grad (option_map (fun g => Tensor.muls g c) (grad p)) p) s.

Definition clip_grad_norm_ (max_norm : R) : Py.M Store unit :=
  fun s => Py.modify (scale_grads (clip_coef max_norm s)) s.

(** Module-level constants of a2c.py. *)
Definition adaptive : bool := true.
Definition momentum : R := 9 / 10.
Definition weight_decay : R := 5 / 10 ^ 4.
Definition lambda_hero : R := 1.

(** One step of a freshly constructed [th.optim.SGD(lr, momentum,
    weight_decay)]: the momentum buffer is created from the first
    direction, so the update is [p -= lr * (grad + weight_decay * p)];
    parameters without gradient are left alone.  [momentum] only enters
    from the second step of an optimiser instance on, and the instance
    is rebuilt at every training step. *)
Definition sgd_step (lr : R) : Py.M Store unit :=
  for_each (fun _ p =>
    match grad p with
    | None => Py.Ok p
    | Some g =>
        (d_p <~ Tensor.add g (Tensor.muls (data p) weight_decay) ;;
         d <~ Tensor.iadd (data p) (Tensor.muls d_p (- lr)) ;;
         Py.Ok (set_data d p))%py
    end).

(** ** SAM: the sharpness-aware optimiser wrapper *)

Module SAM.

(** Modelled from the spec: HERO/sam.py (class SAM) is not among the
    sources.  The norm of all gradients: the global L2 norm, each
    gradient multiplied by the absolute value of its parameter when
    [adaptive] is set.  Parameters without gradient do not take part. *)
Fixpoint sum_sq_scaled (adaptive : bool) (s : Store) : Py.result R :=
  match s with
  | [] => Py.Ok 0
  | p :: s' =>
      match grad p with
      | None => sum_sq_scaled adaptive s'
      | Some g =>
          (w <~ (if adaptive then Tensor.mul g (Tensor.abs (data p))
                 else Py.Ok g) ;;
           r <~ sum_sq_scaled adaptive s' ;;
           Py.Ok (Tensor.sum (Tensor.square w) + r))%py
      end
  end.

(** Modelled from the spec: HERO/sam.py is not among the sources. *)
Definition grad_norm (adaptive : bool) (s : Store) : Py.result R :=
  (q <~ sum_sq_scaled adaptive s ;; Py.Ok (sqrt q))%py.

(** Modelled from the spec: HERO/sam.py is not among the sources.
    [first_step(zero_grad=True)], steps 3 to 5: with
    [scale = rho / (norm + 1e-12)], every parameter moves by
    [scale * gradient * (|param| if adaptive else 1)]; the original
    values are saved and returned, and all gradients are cleared. *)
Definition first_step (rho : R) (adaptive : bool)
  : Py.M Store (list Tensor.t) :=
  (s <- Py.get ;;
   n <- Py.lift (grad_norm adaptive s) ;;
   let scale := rho / (n + float_1e_12) in
   let old_p := theta s in
   for_each (fun _ p =>
     match grad p with
     | None => Py.Ok p
     | Some g =>
         (w <~ (if adaptive then Tensor.mul g (Tensor.abs (data p))
                else Py.Ok g) ;;
          d <~ Tensor.iadd (data p) (Tensor.muls w scale) ;;
          Py.Ok (set_data d p))%py
     end) ;;;
   zero_grad ;;;
   Py.ret old_p)%py.

(** Modelled from the spec: HERO/sam.py is not among the sources.
    The values saved by [first_step] are put back. *)
Fixpoint restore (old_p : list Tensor.t) (s : Store) : Store :=
  match s, old_p with
  | p :: s', d :: old' => set_data d p :: restore old' s'
  | _, _ => s
  end.

(** Modelled from the spec: HERO/sam.py is not among the sources.
    [second_step(zero_grad=True)]: back to the original point, then the
    base optimiser's update with the gradients populated by the caller,
    then all gradients are cleared. *)
Definition second_step (lr : R) (old_p : list Tensor.t) : Py.M Store unit :=
  (Py.modify (restore old_p) ;;;
   sgd_step lr ;;;
   zero_grad)%py.

End SAM.

(** ** A2C *)

(** The data of [self.rollout_buffer]; [get(batch_size=None)] yields it
    once, whole. *)
Record RolloutBuffer : Type := mkRollout {
  observations : Tensor.t;
  actions : Tensor.t;
  advantages : Tensor.t;
  returns : Tensor.t;
  values : Tensor.t
}.

(** The policy network, an external collaborator.  [evaluate_actions]
    is its forward pass at a parameter point and returns the flattened
    values, the log-probabilities and the entropy (or [None]).
    [grad_loss theta i] is what autograd yields for the derivative of
    the assembled loss with respect to parameter [i] at [theta];
    [grad_grad theta tape i] is the derivative, with respect to parameter
    [i], of a scalar that sends the cotangents [tape] into the live
    gradients taken at [theta] (double backward).  [optimizer_step] is
    [step()] of the optimiser the policy was built with. *)
Record Policy : Type := mkPolicy {
  evaluate_actions :
    list Tensor.t -> Tensor.t -> Tensor.t -> Tensor.t * Tensor.t * PyTensor;
  grad_loss : list Tensor.t -> nat -> PyTensor;
  grad_grad : list Tensor.t -> list (nat * Tensor.t) -> nat -> PyTensor;
  optimizer_step : Store -> Store
}.

(** The fields of [self] the training step reads.
    [explained_variance] is stable_baselines3.common.utils'
    function, taken as a parameter. *)
Record A2C : Type := mkA2C {
  rho : R;
  optimize_choice : string;
  normalize_advantage : bool;
  ent_coef : R;
  vf_coef : R;
  max_grad_norm : R;
  lr_schedule : R -> R;
  policy : Policy;
  rollout_buffer : RolloutBuffer;
  explained_variance : Tensor.t -> Tensor.t -> R
}.

(** What the training step mutates. *)
Record World : Type := mkWorld {
  parameters : Store;
  n_updates : nat;
  logger : list (string * R);
  wandb : list (list (string * R))
}.

Definition on_parameters {A} (m : Py.M Store A) : Py.M World A :=
  fun w =>
    let (r, s) := m (parameters w) in
    (r, mkWorld s (n_updates w) (logger w) (wandb w)).

Definition logger_record (key : string) (value : R) : Py.M World unit :=
  Py.modify (fun w =>
    mkWorld (parameters w) (n_updates w) (logger w ++ [(key, value)]) (wandb w)).

Definition wandb_log (d : list (string * R)) : Py.M World unit :=
  Py.modify (fun w =>
    mkWorld (parameters w) (n_updates w) (logger w) (wandb w ++ [d])).

(** *** The loss assembly (lines 158-179, and again 198-219, 251-272) *)

Record Losses : Type := mkLosses {
  policy_loss : R;
  value_loss : R;
  entropy_loss : R;
  loss : R
}.

(** [(advantages - advantages.mean()) / (advantages.std() + 1e-8)] *)
Definition normalize (adv : Tensor.t) : Tensor.t :=
  Tensor.divs (Tensor.adds adv (- Tensor.mean adv))
              (Tensor.std adv + float_1e_8).

Definition compute_losses (self : A2C) (rollout_data : RolloutBuffer)
  (out : Tensor.t * Tensor.t * PyTensor) : Py.result Losses :=
  let '(values, log_prob, entropy) := out in
  let advantages := advantages rollout_data in
  let advantages :=
    if normalize_advantage self then normalize advantages else advantages in
  (prod <~ Tensor.mul advantages log_prob ;;
   let policy_loss := - Tensor.mean prod in
   value_loss <~ Tensor.mse_loss (returns rollout_data) values ;;
   let entropy_loss :=
     match entropy with
     | None => - Tensor.mean (Tensor.neg log_prob)
     | Some entropy => - Tensor.mean entropy
     end in
   Py.Ok (mkLosses policy_loss value_loss entropy_loss
            (policy_loss + ent_coef self * entropy_loss
             + vf_coef self * value_loss)))%py.

(** The forward pass and loss assembly at the parameter point [th]. *)
Definition forward (self : A2C) (rollout_data : RolloutBuffer)
  (th : list Tensor.t) : Py.result Losses :=
  compute_losses self rollout_data
    (evaluate_actions (policy self) th
       (observations rollout_data) (actions rollout_data)).

(** *** The HERO curvature term (lines 220-235) *)

(** ['bias' in name] *)
Fixpoint contains (sub s : string) : bool :=
  String.prefix sub s
  || match s with
     | EmptyString => false
     | String _ s' => contains sub s'
     end.

(** ['bias' not in name and 'bn' not in name] *)
Definition weight_filter (name : string) : bool :=
  negb (contains "bias" name) && negb (contains "bn" name).

(** [hero_loss] starts as the Python float [0.] and becomes a
    zero-dimensional tensor with a graph at the first [+=].  The graph is
    kept as the cotangent the scalar sends into each live gradient. *)
Inductive scalar : Type :=
| PyFloat (x : R)
| Scalar0 (x : R) (tape : list (nat * Tensor.t)).

Definition item (h : scalar) : R :=
  match h with
  | PyFloat x => x
  | Scalar0 x _ => x
  end.

Definition tape_of (h : scalar) : list (nat * Tensor.t) :=
  match h with
  | PyFloat _ => []
  | Scalar0 _ tape => tape
  end.

(** The derivative of [mse_loss(input, target)] with respect to
    [input]: [2 * (input - target) / n], summed back to one element when
    [input] was broadcast. *)
Definition mse_loss_backward (input target : Tensor.t) : Py.result Tensor.t :=
  (d <~ Tensor.sub input target ;;
   let c := map (fun x => 2 * x / INR (Tensor.numel d)) d in
   Py.Ok (if Nat.eqb (Tensor.numel input) (Tensor.numel d) then c
          else [Tensor.sum c]))%py.

(** [hero_loss += lambda_hero * criterion_hero(grad_copy, grad)], where
    [grad_copy] is the live gradient number [index]. *)
Definition hero_add (hero_loss : scalar) (index : nat)
  (grad_copy grad : Tensor.t) : Py.result scalar :=
  (m <~ Tensor.mse_loss grad_copy grad ;;
   c <~ mse_loss_backward grad_copy grad ;;
   Py.Ok (Scalar0 (item hero_loss + lambda_hero * m)
            (tape_of hero_loss ++ [(index, Tensor.muls c lambda_hero)])))%py.

(** The inner loop, lines 231-234:
    [for index, (grad, grad_copy) in enumerate(zip(loss_grads, loss_grads_new))].
    The name [grad] is bound to the member of [loss_grads], [grad_copy]
    to the member of [loss_grads_new]; [x != None] is true of every
    tensor and false of [None]. *)
Fixpoint hero_inner (index_param index : nat)
  (zipped : list (PyTensor * PyTensor)) (hero_loss : scalar)
  : Py.result scalar :=
  match zipped with
  | [] => Py.Ok hero_loss
  | (grad, grad_copy) :: rest =>
      if Nat.eqb index_param index then
        match grad, grad_copy with
        | Some g, Some gc =>
            (h <~ hero_add hero_loss index gc g ;;
             hero_inner index_param (S index) rest h)%py
        | _, _ => hero_inner index_param (S index) rest hero_loss
        end
      else hero_inner index_param (S index) rest hero_loss
  end.

(** The outer loop, lines 229-230:
    [for index_param, (name, param) in enumerate(named_parameters())]. *)
Fixpoint hero_outer (index_param : nat) (names : list string)
  (loss_grads loss_grads_new : list PyTensor) (hero_loss : scalar)
  : Py.result scalar :=
  match names with
  | [] => Py.Ok hero_loss
  | name :: names' =>
      if weight_filter name then
        (h <~ hero_inner index_param 0 (combine loss_grads loss_grads_new)
                hero_loss ;;
         hero_outer (S index_param) names' loss_grads loss_grads_new h)%py
      else hero_outer (S index_param) names' loss_grads loss_grads_new hero_loss
  end.

(** Lines 221 and 229-234. *)
Definition hero_term (names : list string)
  (loss_grads loss_grads_new : list PyTensor) : Py.result scalar :=
  hero_outer 0 names loss_grads loss_grads_new (PyFloat 0).

(** *** The three strategies (lines 181-282) *)

(** [g.data.clone().detach()] for every [g] of a sequence; the attribute
    access raises on [None]. *)
Fixpoint detach_all (gs : list PyTensor) : Py.result (list PyTensor) :=
  match gs with
  | [] => Py.Ok []
  | None :: _ => Py.Raise Py.AttributeError
  | Some g :: gs' => (r <~ detach_all gs' ;; Py.Ok (Some g :: r))%py
  end.

(** [th.autograd.grad(loss_new, parameters, create_graph=True)]:
    [allow_unused] is left at its default, so a parameter the loss does
    not depend on is an error. *)
Fixpoint autograd_grad_from (dtheta : nat -> PyTensor) (i n : nat)
  : Py.result (list PyTensor) :=
  match n with
  | O => Py.Ok []
  | S n' =>
      match dtheta i with
      | None => Py.Raise Py.RuntimeError
      | Some g =>
          (r <~ autograd_grad_from dtheta (S i) n' ;; Py.Ok (Some g :: r))%py
      end
  end.

Definition autograd_grad (dtheta : nat -> PyTensor) (s : Store)
  : Py.result (list PyTensor) :=
  autograd_grad_from dtheta 0 (List.length s).

(** [hero_loss.requires_grad]: the graph of [hero_loss] reaches at least
    one of the [n] parameters. *)
Definition requires_grad (p : Policy) (th : list Tensor.t)
  (tape : list (nat * Tensor.t)) (n : nat) : bool :=
  existsb (fun i => match grad_grad p th tape i with
                    | Some _ => true
                    | None => false
                    end) (seq 0 n).

(** [hero_loss.backward()], line 235.  A Python float has no [backward];
    a tensor that does not require grad makes torch raise. *)
Definition hero_backward (p : Policy) (th : list Tensor.t)
  (hero_loss : scalar) : Py.M Store unit :=
  match hero_loss with
  | PyFloat _ => Py.raise Py.AttributeError
  | Scalar0 _ tape =>
      fun s =>
        if requires_grad p th tape (List.length s)
        then backward (grad_grad p th tape) s
        else (Py.Raise Py.RuntimeError, s)
  end.

(** Lines 236-237:
    [for param, grad in zip(parameters, loss_grads_copy): param.grad += grad]. *)
Definition combine_grads (loss_grads_copy : list PyTensor)
  : Py.M Store unit :=
  for_each (fun i p =>
    match nth_error loss_grads_copy i with
    | None => Py.Ok p
    | Some gc =>
        match grad p, gc with
        | Some a, Some g =>
            (a' <~ Tensor.iadd a g ;; Py.Ok (set_grad (Some a') p))%py
        | _, _ => Py.Raise Py.TypeError
        end
    end).

(** Lines 182-237 of the HERO branch: everything up to, and without,
    [second_step].  [th0] is the point of the first forward pass; the
    result is the state SAM saved for [second_step]. *)
Definition hero_gradients (self : A2C) (rollout_data : RolloutBuffer)
  (th0 : list Tensor.t) : Py.M Store (list Tensor.t) :=
  (backward (grad_loss (policy self) th0) ;;;
   s <- Py.get ;;
   loss_grads <- Py.lift (detach_all (grads s)) ;;
   old_p <- SAM.first_step (rho self) adaptive ;;
   s1 <- Py.get ;;
   let th1 := theta s1 in
   _ <- Py.lift (forward self rollout_data th1) ;;
   loss_grads_new <-
     Py.lift (autograd_grad (grad_loss (policy self) th1) s1) ;;
   loss_grads_copy <- Py.lift (detach_all loss_grads_new) ;;
   hero_loss <-
     Py.lift (hero_term (map name s1) loss_grads loss_grads_new) ;;
   hero_backward (policy self) th1 hero_loss ;;;
   combine_grads loss_grads_copy ;;;
   Py.ret old_p)%py.

(** Lines 241-273 of the SAM branch, up to [second_step].  The second
    pass binds [policy_loss_new], [value_loss_new], [entropy_loss_new]
    and rebinds [loss]; the local variables after the pass are returned
    next to the state SAM saved. *)
Definition sam_gradients (self : A2C) (rollout_data : RolloutBuffer)
  (th0 : list Tensor.t) (l : Losses) : Py.M Store (list Tensor.t * Losses) :=
  (backward (grad_loss (policy self) th0) ;;;
   old_p <- SAM.first_step (rho self) adaptive ;;
   s1 <- Py.get ;;
   let th1 := theta s1 in
   l_new <- Py.lift (forward self rollout_data th1) ;;
   let l := mkLosses (policy_loss l) (value_loss l) (entropy_loss l)
              (loss l_new) in
   backward (grad_loss (policy self) th1) ;;;
   Py.ret (old_p, l))%py.

(** Lines 277-278 of the base branch: the gradient of [loss], before
    it is clipped. *)
Definition base_backward (self : A2C) (th0 : list Tensor.t)
  : Py.M Store unit :=
  (zero_grad ;;;
   backward (grad_loss (policy self) th0))%py.

(** Lines 277-281 of the base branch, up to [optimizer.step()]. *)
Definition base_gradients (self : A2C) (th0 : list Tensor.t)
  : Py.M Store unit :=
  (base_backward self th0 ;;;
   clip_grad_norm_ (max_grad_norm self))%py.

(** The branch the [if]/[elif]/[else] of lines 181, 240 and 276 takes. *)
Inductive strategy : Type := Base | Sam | Hero.

Definition strategy_of (choice : string) : strategy :=
  if String.eqb choice "HERO" then Hero
  else if String.eqb choice "SAM" then Sam
  else Base.

(** The [if]/[elif]/[else] of lines 181-282.  [l] holds the local
    variables [policy_loss], [value_loss], [entropy_loss] and [loss] of
    the first pass; the result holds them as the branch leaves them. *)
Definition optimize (self : A2C) (rollout_data : RolloutBuffer)
  (th0 : list Tensor.t) (l : Losses) : Py.M Store Losses :=
  (if String.eqb (optimize_choice self) "HERO" then
     old_p <- hero_gradients self rollout_data th0 ;;
     SAM.second_step (lr_schedule self 1) old_p ;;;
     Py.ret l
   else if String.eqb (optimize_choice self) "SAM" then
     r <- sam_gradients self rollout_data th0 l ;;
     SAM.second_step (lr_schedule self 1) (fst r) ;;;
     Py.ret (snd r)
   else
     base_gradients self th0 ;;;
     Py.modify (optimizer_step (policy self)) ;;;
     Py.ret l)%py.

(** [hasattr(self.policy, "log_std")] and its value. *)
Definition log_std (s : Store) : option Tensor.t :=
  option_map data (find (fun p => String.eqb (name p) "log_std") s).

(** Lines 284-294.  The calls into [explained_variance], the logger and
    wandb are taken to return. *)
Definition log_metrics (self : A2C) (l : Losses) : Py.M World unit :=
  (let explained_var :=
     explained_variance self (values (rollout_buffer self))
       (returns (rollout_buffer self)) in
   Py.modify (fun w =>
     mkWorld (parameters w) (S (n_updates w)) (logger w) (wandb w)) ;;;
   n <- Py.gets n_updates ;;
   logger_record "train/n_updates" (INR n) ;;;
   logger_record "train/explained_variance" explained_var ;;;
   logger_record "train/entropy_loss" (entropy_loss l) ;;;
   logger_record "train/policy_loss" (policy_loss l) ;;;
   logger_record "train/value_loss" (value_loss l) ;;;
   wandb_log [("train/entropy_loss"%string, entropy_loss l);
              ("train/policy_loss"%string, policy_loss l);
              ("train/value_loss"%string, value_loss l)] ;;;
   s <- Py.gets parameters ;;
   match log_std s with
   | Some t => logger_record "train/std" (Tensor.mean (map exp t))
   | None => Py.ret tt
   end)%py.

(** [A2C.train], lines 152-294 of it.  Switching the policy to training
    mode touches nothing the step reads, and the cast of discrete actions
    is part of [evaluate_actions].  [_update_learning_rate] of line 149
    belongs to the base class: the learning rate it hands to the
    optimiser is part of [optimizer_step], and the [train/learning_rate]
    entry it adds to the logger before the step is not part of [logger]. *)
Definition train (self : A2C) : Py.M World unit :=
  (let rollout_data := rollout_buffer self in
   th0 <- Py.gets (fun w => theta (parameters w)) ;;
   l <- Py.lift (forward self rollout_data th0) ;;
   l <- on_parameters (optimize self rollout_data th0 l) ;;
   log_metrics self l)%py.

(** The same agent with another clipping threshold. *)
Definition with_max_grad_norm (m : R) (self : A2C) : A2C :=
  mkA2C (rho self) (optimize_choice self) (normalize_advantage self)
    (ent_coef self) (vf_coef self) m (lr_schedule self) (policy self)
    (rollout_buffer self) (explained_variance self).

Definition with_rho (r : R) (self : A2C) : A2C :=
  mkA2C r (optimize_choice self) (normalize_advantage self)
    (ent_coef self) (vf_coef self) (max_grad_norm self) (lr_schedule self)
    (policy self) (rollout_buffer self) (explained_variance self).

Definition with_policy (p : Policy) (self : A2C) : A2C :=
  mkA2C (rho self) (optimize_choice self) (normalize_advantage self)
    (ent_coef self) (vf_coef self) (max_grad_norm self) (lr_schedule self)
    p (rollout_buffer self) (explained_variance self).

(** ** A small concrete agent

    A linear value head [v(x) = w * x + b] with a constant action
    distribution, one transition with observation 1 and return 0, and
    [vf_coef = 1/2]: the assembled loss is [(w + b)^2 / 2], its gradient
    with respect to either parameter is [w + b], and its Hessian is the
    all-ones matrix. *)

Module Toy.

Definition w_of (th : list Tensor.t) : R := hd 0 (nth 0 th []).
Definition b_of (th : list Tensor.t) : R := hd 0 (nth 1 th []).

Definition evaluate_actions (th : list Tensor.t) (obs acts : Tensor.t)
  : Tensor.t * Tensor.t * PyTensor :=
  (map (fun x => w_of th * x + b_of th) obs,
   Tensor.zeros_like obs,
   Some (Tensor.zeros_like obs)).

Definition grad_loss (th : list Tensor.t) (i : nat) : PyTensor :=
  match i with
  | 0%nat | 1%nat => Some [w_of th + b_of th]
  | _ => None
  end.

(** The cotangent a tape sends into live gradient [j]. *)
Fixpoint cotangent (tape : list (nat * Tensor.t)) (j : nat) : R :=
  match tape with
  | [] => 0
  | (k, c) :: tape' =>
      (if Nat.eqb k j then hd 0 c else 0) + cotangent tape' j
  end.

Definition grad_grad (th : list Tensor.t) (tape : list (nat * Tensor.t))
  (i : nat) : PyTensor :=
  match i with
  | 0%nat | 1%nat => Some [cotangent tape 0 + cotangent tape 1]
  | _ => None
  end.

(** Plain gradient descent with step 1/10 as the policy's optimiser. *)
Definition optimizer_step (s : Store) : Store :=
  map (fun p =>
         match grad p with
         | Some g =>
             set_data (Tensor.zip_with (fun x d => x - d / 10) (data p) g) p
         | None => p
         end) s.

Definition policy : Policy :=
  mkPolicy evaluate_actions grad_loss grad_grad optimizer_step.

(** A policy whose gradient changes shape once the weight has left 1:
    the parameter set seen by the second pass differs from the first. *)
Definition grad_loss_reshaped (th : list Tensor.t) (i : nat) : PyTensor :=
  match i with
  | 0%nat =>
      if Req_dec_T (w_of th) 1 then Some [w_of th + b_of th; 0]
      else Some [w_of th + b_of th; 0; 0]
  | 1%nat => Some [w_of th + b_of th]
  | _ => None
  end.

Definition policy_reshaped : Policy :=
  mkPolicy evaluate_actions grad_loss_reshaped grad_grad optimizer_step.

Definition rollout : RolloutBuffer :=
  mkRollout [1] [0] [1] [0] [0].

Definition agent (choice : string) : A2C :=
  mkA2C (1 / 20) choice false 0 (1 / 2) (1 / 2) (fun _ => 7 / 10 ^ 4)
    policy rollout (fun _ _ => 0).

(** [w = 1], [b = 0], no gradient populated. *)
Definition store : Store :=
  [mkParam "mlp.weight" [1] None; mkParam "mlp.bias" [0] None].

(** The same with a parameter the loss does not depend on. *)
Definition store_unused : Store :=
  store ++ [mkParam "aux.weight" [3] None].

Definition world (s : Store) : World := mkWorld s 0 [] [].

(** The factor [rho / (norm + 1e-12)] of [first_step] at [store]: the
    adaptive gradient norm is 1 there. *)
Definition scale : R := 1 / 20 / (1 + float_1e_12).

(** The world one SAM training step leaves: SGD with learning rate
    [7e-4] and weight decay [5e-4] has been applied at the original
    point with the gradient [1 + scale] of the perturbed point, and the
    metrics recorded are those of the first pass (the value loss of the
    second pass is [(1 + scale)^2]). *)
Definition world_after_sam : World :=
  mkWorld
    [mkParam "mlp.weight" [1 - 7 / 10 ^ 4 * (1 + scale + weight_decay)] None;
     mkParam "mlp.bias" [- (7 / 10 ^ 4 * (1 + scale))] None]
    1
    [("train/n_updates"%string, 1);
     ("train/explained_variance"%string, 0);
     ("train/entropy_loss"%string, 0);
     ("train/policy_loss"%string, 0);
     ("train/value_loss"%string, 1)]
    [[("train/entropy_loss"%string, 0);
      ("train/policy_loss"%string, 0);
      ("train/value_loss"%string, 1)]].

(** The agent with the perturbation radius set to zero. *)
Definition agent0 (choice : string) : A2C := with_rho 0 (agent choice).

(** The HERO agent on the policy whose gradient changes shape. *)
Definition agent_reshaped : A2C := with_policy policy_reshaped (agent "HERO").

(** A store whose weight has two elements, for [policy_reshaped]. *)
Definition store2 : Store :=
  [mkParam "mlp.weight" [1; 0] None; mkParam "mlp.bias" [0] None].

(** A model all of whose parameters fail the name filter. *)
Definition store_biases : Store :=
  [mkParam "fc.bias" [1] None; mkParam "bn1.weight" [0] None].

(** [store] with gradients left over from an earlier backward pass. *)
Definition store_stale : Store :=
  [mkParam "mlp.weight" [1] (Some [5]); mkParam "mlp.bias" [0] (Some [7])].

(** The ten transitions of the end-to-end scenario. *)
Definition advantages10 : Tensor.t :=
  [1; 1; 1; 1; 1; -1; -1; -1; -1; -1].

End Toy.

(** ** The constructor (lines 71-138)

    [A2C.__init__] stores [rho], [optimize_choice] and
    [normalize_advantage] as they are given, and prepares
    [self.policy_kwargs], the dictionary the policy is later built from. *)

(** The values a keyword dictionary holds, as far as the constructor
    tells them apart: a class, a dictionary of numbers, anything else. *)
Inductive PyObj : Type :=
| PyClass (qualname : string)
| PyDict (items : list (string * R))
| PyOpaque (id : nat).

(** A Python [dict] with string keys, in insertion order. *)
Definition dict : Type := list (string * PyObj).

(** [d.get(k)] *)
Fixpoint dict_get (k : string) (d : dict) : option PyObj :=
  match d with
  | [] => None
  | (k', v) :: d' => if String.eqb k k' then Some v else dict_get k d'
  end.

(** [k in d] *)
Definition dict_mem (k : string) (d : dict) : bool :=
  match dict_get k d with
  | Some _ => true
  | None => false
  end.

(** [d[k] = v]: an existing key keeps its place, a new one goes last. *)
Fixpoint dict_set (k : string) (v : PyObj) (d : dict) : dict :=
  match d with
  | [] => [(k, v)]
  | (k', v') :: d' =>
      if String.eqb k k' then (k, v) :: d' else (k', v') :: dict_set k v d'
  end.

(** [th.optim.RMSprop] *)
Definition RMSprop : PyObj := PyClass "torch.optim.RMSprop".

(** [dict(alpha=0.99, eps=rms_prop_eps, weight_decay=0)] *)
Definition rms_prop_kwargs (rms_prop_eps : R) : PyObj :=
  PyDict [("alpha"%string, 99 / 100); ("eps"%string, rms_prop_eps);
          ("weight_decay"%string, 0)].

(** Lines 133-135.  [policy_kwargs] is [self.policy_kwargs] as the base
    class constructor left it. *)
Definition init_policy_kwargs (use_rms_prop : bool) (rms_prop_eps : R)
  (policy_kwargs : dict) : dict :=
  if use_rms_prop && negb (dict_mem "optimizer_class" policy_kwargs) then
    dict_set "optimizer_kwargs" (rms_prop_kwargs rms_prop_eps)
      (dict_set "optimizer_class" RMSprop policy_kwargs)
  else policy_kwargs.

(** The same agent with another [optimize_choice]. *)
Definition with_optimize_choice (c : string) (self : A2C) : A2C :=
  mkA2C (rho self) c (normalize_advantage self)
    (ent_coef self) (vf_coef self) (max_grad_norm self) (lr_schedule self)
    (policy self) (rollout_buffer self) (explained_variance self).

(** ** Specification-side definitions *)

(** [big_sum n f] is the sum of [f i] over [i < n]. *)
Fixpoint big_sum (n : nat) (f : nat -> R) : R :=
  match n with
  | O => 0
  | S n' => big_sum n' f + f n'
  end.

(** Element [i] of a tensor. *)
Definition elt (a : Tensor.t) (i : nat) : R := nth i a 0.

(** The mean squared error of two tensors of [n] elements. *)
Definition mean_squared_error (n : nat) (a b : Tensor.t) : R :=
  big_sum n (fun i => (elt a i - elt b i) * (elt a i - elt b i)) / INR n.

(** Parameter [i] takes part in the curvature term: its name passes the
    filter and both of its gradients are present. *)
Definition included (names : list string) (pre live : list PyTensor)
  (i : nat) (g gc : Tensor.t) : Prop :=
  (exists nm, nth_error names i = Some nm /\ weight_filter nm = true)
  /\ nth_error pre i = Some (Some g)
  /\ nth_error live i = Some (Some gc).

(** What parameter [k + j] adds to the curvature term, as the
    specification words it: [lambda_hero] times the mean squared error
    of the live against the detached gradient when the name passes the
    filter, nothing otherwise.  [names] starts at parameter [k]. *)
Definition contribution_from (k : nat) (names : list string)
  (pre live : list PyTensor) (j : nat) : R :=
  match nth_error names j, nth_error pre (k + j), nth_error live (k + j) with
  | Some nm, Some (Some g), Some (Some gc) =>
      if weight_filter nm
      then lambda_hero * mean_squared_error (Tensor.numel g) gc g
      else 0
  | _, _, _ => 0
  end.

(** The curvature term of the specification: the sum of the
    contributions of all parameters. *)
Definition curvature_sum (names : list string) (pre live : list PyTensor)
  : R :=
  big_sum (List.length names) (contribution_from 0 names pre live).

(** The derivative of the curvature term with respect to the live
    gradient [gc] of a parameter whose detached gradient [g] has the
    same shape: [lambda_hero * 2 * (gc - g) / n], element by element. *)
Definition curvature_cotangent (gc g : Tensor.t) : Tensor.t :=
  map (fun d => lambda_hero * (2 * d / INR (Tensor.numel g)))
    (Tensor.zip_with Rminus gc g).

(** The graph of the curvature term of the specification: one cotangent
    into the live gradient of every parameter that takes part, in
    enumeration order.  [names] starts at parameter [k]. *)
Fixpoint curvature_tape_from (k : nat) (names : list string)
  (pre live : list PyTensor) : list (nat * Tensor.t) :=
  match names with
  | [] => []
  | nm :: names' =>
      match weight_filter nm, nth_error pre k, nth_error live k with
      | true, Some (Some g), Some (Some gc) => [(k, curvature_cotangent gc g)]
      | _, _, _ => []
      end ++ curvature_tape_from (S k) names' pre live
  end.

Definition curvature_tape (names : list string) (pre live : list PyTensor)
  : list (nat * Tensor.t) :=
  curvature_tape_from 0 names pre live.

(** The live gradients of the second pass, [loss_grads_new]. *)
Definition live_grads (self : A2C) (s1 : Store) : list PyTensor :=
  map (grad_loss (policy self) (theta s1)) (seq 0 (List.length s1)).

(** The combination step as the specification words it: the gradient
    every parameter carries into the descent step is the gradient of the
    curvature term plus the detached snapshot of the first,
    pre-perturbation backward pass. *)
Definition combines_first_pass_snapshot (self : A2C) (rb : RolloutBuffer)
  (s : Store) : Prop :=
  forall old_p s',
    hero_gradients self rb (theta s) s = (Py.Ok old_p, s') ->
    exists s_b s1 hero_loss,
      backward (grad_loss (policy self) (theta s)) s = (Py.Ok tt, s_b)
      /\ SAM.first_step (rho self) adaptive s_b = (Py.Ok old_p, s1)
      /\ hero_term (map name s1) (grads s_b) (live_grads self s1)
         = Py.Ok hero_loss
      /\ forall i p', nth_error s' i = Some p' ->
         exists h g0 a,
           grad_grad (policy self) (theta s1) (tape_of hero_loss) i = Some h
           /\ nth_error (grads s_b) i = Some (Some g0)
           /\ Tensor.iadd h g0 = Py.Ok a
           /\ grad p' = Some a.

(** All-or-nothing as the specification words it: when the stored
    snapshot and the live gradient of a parameter of the curvature term
    differ in shape, the step terminates with an error and every
    parameter has the value it had at entry. *)
Definition mismatch_aborts_unchanged (self : A2C) (rb : RolloutBuffer)
  (l : Losses) (s : Store) : Prop :=
  (exists s_b old_p s1 i g gc,
      backward (grad_loss (policy self) (theta s)) s = (Py.Ok tt, s_b)
      /\ SAM.first_step (rho self) adaptive s_b = (Py.Ok old_p, s1)
      /\ included (map name s1) (grads s_b) (live_grads self s1) i g gc
      /\ Tensor.numel gc <> Tensor.numel g) ->
  exists e s',
    optimize self rb (theta s) l s = (Py.Raise e, s')
    /\ theta s' = theta s.

(** No parameter has a gradient: the state [zero_grad] leaves. *)
Definition cleared (s : Store) : Prop := Forall (fun p => grad p = None) s.

(** All elements are zero. *)
Definition is_zero (a : Tensor.t) : Prop := Forall (fun x => x = 0) a.

(** A graph that sends zero into every live gradient. *)
Definition tape_zero (tape : list (nat * Tensor.t)) : Prop :=
  Forall (fun kc => is_zero (snd kc)) tape.

(** Double backward is linear in the cotangents: zero in, zero out. *)
Definition double_backward_linear (P : Policy) : Prop :=
  forall th tape i h,
    tape_zero tape -> grad_grad P th tape i = Some h -> is_zero h.

(** A gradient through the gradient has the shape of the gradient, both
    having the shape of the parameter. *)
Definition double_backward_shaped (P : Policy) : Prop :=
  forall th tape i h g,
    grad_grad P th tape i = Some h -> grad_loss P th i = Some g ->
    Tensor.numel h = Tensor.numel g.

(** * Properties *)

Arguments float_1e_6 : simpl never.
Arguments float_1e_8 : simpl never.
Arguments float_1e_12 : simpl never.

(** ** Tensors *)

Lemma float_1e_6_pos : 0 < float_1e_6.
Proof. unfold float_1e_6. apply Rinv_0_lt_compat. apply pow_lt. lra. Qed.

Lemma float_1e_8_pos : 0 < float_1e_8.
Proof. unfold float_1e_8. apply Rinv_0_lt_compat. apply pow_lt. lra. Qed.

Lemma float_1e_12_pos : 0 < float_1e_12.
Proof. unfold float_1e_12. apply Rinv_0_lt_compat. apply pow_lt. lra. Qed.

Lemma float_1e_8_val : float_1e_8 = 1 / 100000000.
Proof. unfold float_1e_8. simpl. field. Qed.

Lemma big_sum_ext (n : nat) (f g : nat -> R) :
  (forall i, (i < n)%nat -> f i = g i) -> big_sum n f = big_sum n g.
Proof.
  induction n as [|n IH]; intros H; simpl; [reflexivity|].
  rewrite IH by (intros; apply H; lia).
  rewrite H by lia. reflexivity.
Qed.

Lemma big_sum_shift (n : nat) (f : nat -> R) :
  big_sum (S n) f = f 0%nat + big_sum n (fun i => f (S i)).
Proof.
  induction n as [|n IH].
  - simpl. lra.
  - change (big_sum (S (S n)) f) with (big_sum (S n) f + f (S n)).
    rewrite IH. simpl. lra.
Qed.

Lemma sum_big_sum (a : Tensor.t) :
  Tensor.sum a = big_sum (Tensor.numel a) (elt a).
Proof.
  induction a as [|x a IH].
  - reflexivity.
  - change (Tensor.numel (x :: a)) with (S (Tensor.numel a)).
    rewrite big_sum_shift. simpl. rewrite IH. reflexivity.
Qed.

Lemma numel_zip_with (f : R -> R -> R) (a b : Tensor.t) :
  Tensor.numel a = Tensor.numel b ->
  Tensor.numel (Tensor.zip_with f a b) = Tensor.numel a.
Proof.
  revert b. induction a as [|x a IH]; intros [|y b] H; simpl in *;
    try discriminate; try reflexivity.
  f_equal. apply IH. congruence.
Qed.

Lemma elt_zip_with (f : R -> R -> R) (a b : Tensor.t) (i : nat) :
  Tensor.numel a = Tensor.numel b -> (i < Tensor.numel a)%nat ->
  elt (Tensor.zip_with f a b) i = f (elt a i) (elt b i).
Proof.
  unfold elt.
  revert b i. induction a as [|x a IH]; intros [|y b] i H Hi; simpl in *;
    try discriminate; try lia.
  destruct i as [|i]; [reflexivity|].
  apply IH; [congruence | lia].
Qed.

Lemma elt_map (f : R -> R) (a : Tensor.t) (i : nat) :
  (i < Tensor.numel a)%nat -> elt (map f a) i = f (elt a i).
Proof.
  unfold elt.
  revert i. induction a as [|x a IH]; intros i Hi; simpl in *; [lia|].
  destruct i as [|i]; [reflexivity|]. apply IH. lia.
Qed.

Lemma numel_map (f : R -> R) (a : Tensor.t) :
  Tensor.numel (map f a) = Tensor.numel a.
Proof. apply length_map. Qed.

Lemma expand_same (a : Tensor.t) : Tensor.expand a (Tensor.numel a) = Some a.
Proof. unfold Tensor.expand. rewrite Nat.eqb_refl. reflexivity. Qed.

Lemma binop_same_shape (f : R -> R -> R) (a b : Tensor.t) :
  Tensor.numel a = Tensor.numel b ->
  Tensor.binop f a b = Py.Ok (Tensor.zip_with f a b).
Proof.
  intros H. unfold Tensor.binop, Tensor.broadcast_shape.
  rewrite <- H, Nat.eqb_refl, expand_same.
  rewrite H, expand_same. reflexivity.
Qed.

Lemma iadd_same_shape (a b : Tensor.t) :
  Tensor.numel a = Tensor.numel b ->
  Tensor.iadd a b = Py.Ok (Tensor.zip_with Rplus a b).
Proof.
  intros H. unfold Tensor.iadd. rewrite H, expand_same. reflexivity.
Qed.

Lemma mse_loss_same_shape (a b : Tensor.t) :
  Tensor.numel a = Tensor.numel b ->
  Tensor.mse_loss a b = Py.Ok (mean_squared_error (Tensor.numel a) a b).
Proof.
  intros H. unfold Tensor.mse_loss, Tensor.sub.
  rewrite (binop_same_shape _ _ _ H). simpl.
  unfold mean_squared_error, Tensor.mean, Tensor.square.
  rewrite sum_big_sum, !numel_map, numel_zip_with by assumption.
  do 2 f_equal. apply big_sum_ext. intros i Hi.
  rewrite elt_map by (rewrite numel_zip_with; assumption).
  rewrite elt_zip_with by assumption. reflexivity.
Qed.

(** ** The loss assembly *)

Lemma numel_normalize (a : Tensor.t) :
  Tensor.numel (normalize a) = Tensor.numel a.
Proof.
  unfold normalize, Tensor.divs, Tensor.adds. rewrite !numel_map. reflexivity.
Qed.

(** C6.  In every pass, that is at every parameter point [th] where the
    policy returns values and log-probabilities of the batch size [n],
    the loss assembly succeeds and yields
    [policy_loss = -mean(advantages * log_prob)],
    [value_loss = mean squared error of returns against values],
    [entropy_loss = -mean(entropy)], or [-mean(-log_prob)] when the
    policy returns no entropy, and
    [loss = policy_loss + ent_coef * entropy_loss + vf_coef * value_loss].
    The advantages are the normalised ones when [normalize_advantage]
    is set. *)
Theorem forward_losses (self : A2C) (rb : RolloutBuffer)
  (th : list Tensor.t) (vals log_prob : Tensor.t) (entropy : PyTensor)
  (n : nat) :
  evaluate_actions (policy self) th (observations rb) (actions rb)
    = (vals, log_prob, entropy) ->
  Tensor.numel (advantages rb) = n ->
  Tensor.numel (returns rb) = n ->
  Tensor.numel vals = n ->
  Tensor.numel log_prob = n ->
  let adv :=
    if normalize_advantage self then normalize (advantages rb)
    else advantages rb in
  exists l,
    forward self rb th = Py.Ok l
    /\ policy_loss l
       = - (big_sum n (fun i => elt adv i * elt log_prob i) / INR n)
    /\ value_loss l = mean_squared_error n (returns rb) vals
    /\ entropy_loss l
       = match entropy with
         | Some e => - (big_sum (Tensor.numel e) (elt e) / INR (Tensor.numel e))
         | None => - (big_sum n (fun i => - elt log_prob i) / INR n)
         end
    /\ loss l
       = policy_loss l + ent_coef self * entropy_loss l
         + vf_coef self * value_loss l.
Proof.
  intros Hout Ha Hr Hv Hl adv.
  assert (Hadv : Tensor.numel adv = Tensor.numel log_prob).
  { subst adv. destruct (normalize_advantage self);
      rewrite ?numel_normalize; congruence. }
  unfold forward. rewrite Hout. unfold compute_losses. fold adv.
  unfold Tensor.mul. rewrite (binop_same_shape _ _ _ Hadv).
  rewrite mse_loss_same_shape by congruence.
  cbn [Py.rbind]. eexists. split; [reflexivity|].
  cbn [policy_loss value_loss entropy_loss loss].
  repeat split.
  - unfold Tensor.mean. rewrite sum_big_sum, numel_zip_with by assumption.
    rewrite Hadv, Hl. do 2 f_equal. apply big_sum_ext. intros i Hi.
    apply elt_zip_with; [assumption | lia].
  - rewrite Hr. reflexivity.
  - destruct entropy as [e|].
    + unfold Tensor.mean. rewrite sum_big_sum. reflexivity.
    + unfold Tensor.mean, Tensor.neg. rewrite sum_big_sum, numel_map, Hl.
      do 2 f_equal. apply big_sum_ext. intros i Hi.
      apply elt_map. lia.
Qed.

(** The assembly at the entry point of the small agent: every
    hypothesis of [forward_losses] holds there. *)
Lemma forward_losses_witness :
  exists l,
    forward (Toy.agent "HERO") Toy.rollout (theta Toy.store) = Py.Ok l
    /\ policy_loss l
       = - (big_sum 1 (fun i => elt [1] i * elt [0] i) / INR 1)
    /\ value_loss l = mean_squared_error 1 [0] [1 * 1 + 0]
    /\ entropy_loss l = - (big_sum 1 (elt [0]) / INR 1)
    /\ loss l = policy_loss l + 0 * entropy_loss l + 1 / 2 * value_loss l.
Proof.
  apply (@forward_losses (Toy.agent "HERO") Toy.rollout (theta Toy.store)
           [1 * 1 + 0] [0] (Some [0]) 1); reflexivity.
Defined.

Lemma ratio_square_near_one (s e : R) :
  1 <= s -> 0 < e -> e <= 1 / 100000000 ->
  - (1 / 1000000) <= s / (s + e) * (s / (s + e)) - 1 <= 1 / 1000000.
Proof.
  intros Hs He0 He.
  remember (s / (s + e)) as q eqn:Eq.
  assert (Hq : q * (s + e) = s) by (subst q; field; lra).
  assert (Hd : (1 - q) * (s + e) = e) by nra.
  assert (Hq0 : 0 <= 1 - q).
  { destruct (Rle_or_lt 0 (1 - q)) as [H|H]; [exact H|]. exfalso. nra. }
  assert (Hq1 : 1 - q <= e) by nra.
  split; nra.
Qed.

(** C9.  The ten advantages [1,1,1,1,1,-1,-1,-1,-1,-1], normalised as
    [(advantages - mean) / (std + 1e-8)], have mean 0 and unit variance
    within 1e-6.  The variance is taken with the estimator of
    [advantages.std()], torch's unbiased one. *)
Theorem normalized_advantages_mean_var :
  Rabs (Tensor.mean (normalize Toy.advantages10) - 0) <= 1 / 10 ^ 6
  /\ Rabs (Tensor.var (normalize Toy.advantages10) - 1) <= 1 / 10 ^ 6.
Proof.
  assert (Hm : Tensor.mean Toy.advantages10 = 0).
  { unfold Tensor.mean, Toy.advantages10. simpl. field. }
  assert (Hv : Tensor.var Toy.advantages10 = 10 / 9).
  { unfold Tensor.var. rewrite Hm.
    unfold Toy.advantages10, Tensor.adds, Tensor.square. simpl. field. }
  unfold normalize, Tensor.std. rewrite Hm, Hv.
  assert (Hs2 : sqrt (10 / 9) * sqrt (10 / 9) = 10 / 9)
    by (apply sqrt_sqrt; lra).
  assert (Hs1 : 1 <= sqrt (10 / 9)).
  { rewrite <- sqrt_1. apply sqrt_le_1; lra. }
  pose proof float_1e_8_val as He.
  pose proof float_1e_8_pos as He0.
  remember (sqrt (10 / 9)) as s eqn:Es.
  remember float_1e_8 as e eqn:Ee.
  assert (Hmean :
    Tensor.mean (Tensor.divs (Tensor.adds Toy.advantages10 (- 0)) (s + e))
    = 0).
  { unfold Tensor.mean, Toy.advantages10, Tensor.divs, Tensor.adds.
    simpl. field. lra. }
  assert (Hvar :
    Tensor.var (Tensor.divs (Tensor.adds Toy.advantages10 (- 0)) (s + e))
    = s / (s + e) * (s / (s + e))).
  { unfold Tensor.var. rewrite Hmean.
    unfold Toy.advantages10, Tensor.divs, Tensor.adds, Tensor.square.
    simpl.
    replace (s / (s + e) * (s / (s + e)))
      with (s * s / ((s + e) * (s + e))) by (field; lra).
    rewrite Hs2. field. lra. }
  replace (1 / 10 ^ 6) with (1 / 1000000) by (simpl; field).
  split.
  - rewrite Hmean. rewrite Rminus_0_r, Rabs_R0. lra.
  - rewrite Hvar. apply Rabs_le.
    apply ratio_square_near_one; lra.
Qed.

(** ** The curvature term *)

Example weight_filter_weight :
  weight_filter "mlp_extractor.policy_net.0.weight" = true.
Proof. reflexivity. Qed.

Example weight_filter_bias :
  weight_filter "mlp_extractor.policy_net.0.bias" = false.
Proof. reflexivity. Qed.

Example weight_filter_bn : weight_filter "features.bn1.weight" = false.
Proof. reflexivity. Qed.

Example mse_loss_shapes :
  Tensor.mse_loss [1; 2; 3] [1; 2] = Py.Raise Py.RuntimeError
  /\ Tensor.mse_loss [1; 2] [1; 2] = Py.Ok (Tensor.mean [(1 - 1) * (1 - 1); (2 - 2) * (2 - 2)]).
Proof. split; reflexivity. Qed.






Lemma rbind_ok {A} (r : Py.result A) : Py.rbind r (fun a => Py.Ok a) = r.
Proof. destruct r; reflexivity. Qed.

Lemma nth_error_combine {A B} (a : list A) (b : list B) (i : nat) :
  nth_error (combine a b) i
  = match nth_error a i, nth_error b i with
    | Some x, Some y => Some (x, y)
    | _, _ => None
    end.
Proof.
  revert b i. induction a as [|x a IH]; intros [|y b] [|i]; simpl;
    try reflexivity.
  - destruct (nth_error a i); reflexivity.
  - apply IH.
Qed.

Lemma hero_inner_past (zipped : list (PyTensor * PyTensor)) (k j : nat)
  (h : scalar) :
  (k < j)%nat -> hero_inner k j zipped h = Py.Ok h.
Proof.
  revert j. induction zipped as [|[g gc] rest IH]; intros j Hj; simpl;
    [reflexivity|].
  destruct (Nat.eqb_spec k j); [lia|]. apply IH. lia.
Qed.

Lemma hero_inner_spec (zipped : list (PyTensor * PyTensor)) (k j : nat)
  (h : scalar) :
  (j <= k)%nat ->
  hero_inner k j zipped h
  = match nth_error zipped (k - j) with
    | Some (Some g, Some gc) => hero_add h k gc g
    | _ => Py.Ok h
    end.
Proof.
  revert j. induction zipped as [|[g gc] rest IH]; intros j Hj; simpl.
  - destruct (k - j)%nat; reflexivity.
  - destruct (Nat.eqb_spec k j) as [->|Hne].
    + rewrite Nat.sub_diag. simpl.
      destruct g as [g|], gc as [gc|];
        try (apply hero_inner_past; lia).
      rewrite <- (rbind_ok (hero_add h j gc g)) at 2.
      unfold Py.rbind. destruct (hero_add h j gc g); [|reflexivity].
      apply hero_inner_past. lia.
    + replace (k - j)%nat with (S (k - S j)) by lia. simpl.
      apply IH. lia.
Qed.

(** The inner loop visits at most the one pair with index [k]. *)
Lemma hero_inner_0 (zipped : list (PyTensor * PyTensor)) (k : nat)
  (h : scalar) :
  hero_inner k 0 zipped h
  = match nth_error zipped k with
    | Some (Some g, Some gc) => hero_add h k gc g
    | _ => Py.Ok h
    end.
Proof.
  rewrite hero_inner_spec by lia. rewrite Nat.sub_0_r. reflexivity.
Qed.

Lemma hero_add_same_shape (h : scalar) (i : nat) (gc g : Tensor.t) :
  Tensor.numel gc = Tensor.numel g ->
  exists c,
    hero_add h i gc g
    = Py.Ok (Scalar0
               (item h
                + lambda_hero * mean_squared_error (Tensor.numel g) gc g)
               (tape_of h ++ [(i, c)])).
Proof.
  intros H. unfold hero_add, mse_loss_backward.
  rewrite mse_loss_same_shape by assumption.
  unfold Tensor.sub. rewrite (binop_same_shape _ _ _ H).
  cbn [Py.rbind]. rewrite H. eexists. reflexivity.
Qed.

Lemma contribution_from_cons (k : nat) (nm : string) (names : list string)
  (pre live : list PyTensor) (j : nat) :
  contribution_from k (nm :: names) pre live (S j)
  = contribution_from (S k) names pre live j.
Proof.
  unfold contribution_from. simpl. rewrite Nat.add_succ_r. reflexivity.
Qed.

(** The nested loops compute the sum of the contributions. *)
Lemma hero_outer_closed (names : list string) :
  forall (k : nat) (pre live : list PyTensor) (h : scalar),
  (forall j nm g gc,
     nth_error names j = Some nm -> weight_filter nm = true ->
     nth_error pre (k + j) = Some (Some g) ->
     nth_error live (k + j) = Some (Some gc) ->
     Tensor.numel gc = Tensor.numel g) ->
  exists h',
    hero_outer k names pre live h = Py.Ok h'
    /\ item h'
       = item h
         + big_sum (List.length names) (contribution_from k names pre live).
Proof.
  induction names as [|nm names IH]; intros k pre live h Hshape.
  - exists h. split; [reflexivity | simpl; lra].
  - assert (Hrest : forall j nm' g gc,
              nth_error names j = Some nm' -> weight_filter nm' = true ->
              nth_error pre (S k + j) = Some (Some g) ->
              nth_error live (S k + j) = Some (Some gc) ->
              Tensor.numel gc = Tensor.numel g).
    { intros j nm' g gc Hn Hf Hp Hl.
      apply (Hshape (S j) nm' g gc); try assumption;
        rewrite Nat.add_succ_r; assumption. }
    cbn [List.length]. rewrite big_sum_shift.
    rewrite (big_sum_ext _ _ (contribution_from (S k) names pre live))
      by (intros; apply contribution_from_cons).
    cbn [hero_outer].
    unfold contribution_from at 1. cbn [nth_error]. rewrite Nat.add_0_r.
    destruct (weight_filter nm) eqn:Hf.
    + rewrite hero_inner_0, nth_error_combine.
      destruct (nth_error pre k) as [[g|]|] eqn:Hp;
        destruct (nth_error live k) as [[gc|]|] eqn:Hl;
        cbn [Py.rbind];
        try (destruct (IH (S k) pre live h Hrest) as [h' [E1 E2]];
             exists h'; split; [exact E1 | rewrite E2; lra]).
      assert (Hs : Tensor.numel gc = Tensor.numel g).
      { apply (Hshape 0%nat nm g gc); try reflexivity; try assumption;
          rewrite Nat.add_0_r; assumption. }
      destruct (hero_add_same_shape h k gc g Hs) as [c Hc].
      rewrite Hc. cbn [Py.rbind].
      match goal with
      | |- context [hero_outer _ _ _ _ ?h1] =>
          destruct (IH (S k) pre live h1 Hrest) as [h' [E1 E2]]
      end.
      exists h'. split; [exact E1|]. rewrite E2. cbn [item]. lra.
    + destruct (IH (S k) pre live h Hrest) as [h' [E1 E2]].
      exists h'. split; [exact E1|]. rewrite E2.
      destruct (nth_error pre k) as [[g|]|];
        destruct (nth_error live k) as [[gc|]|]; lra.
Qed.

Lemma hero_term_closed (names : list string) (pre live : list PyTensor) :
  (forall i g gc, included names pre live i g gc ->
                  Tensor.numel gc = Tensor.numel g) ->
  exists h,
    hero_term names pre live = Py.Ok h
    /\ item h = curvature_sum names pre live.
Proof.
  intros Hshape.
  destruct (hero_outer_closed names 0 pre live (PyFloat 0)) as [h [E1 E2]].
  - intros j nm g gc Hn Hf Hp Hl. apply (Hshape j).
    unfold included. split; [exists nm; split; assumption | split; assumption].
  - exists h. split; [exact E1|]. rewrite E2. cbn [item].
    unfold curvature_sum. lra.
Qed.

Lemma hero_add_cotangent (h : scalar) (i : nat) (gc g : Tensor.t) :
  Tensor.numel gc = Tensor.numel g ->
  hero_add h i gc g
  = Py.Ok (Scalar0
             (item h + lambda_hero * mean_squared_error (Tensor.numel g) gc g)
             (tape_of h ++ [(i, curvature_cotangent gc g)])).
Proof.
  intros H. unfold hero_add, mse_loss_backward.
  rewrite mse_loss_same_shape by assumption.
  unfold Tensor.sub. rewrite (binop_same_shape _ _ _ H).
  cbn [Py.rbind]. rewrite numel_zip_with by exact H.
  rewrite Nat.eqb_refl, H.
  unfold curvature_cotangent, Tensor.muls. rewrite map_map.
  do 5 f_equal. apply map_ext. intros d. ring.
Qed.

(** The graph the nested loops build is the graph of the
    specification's curvature term. *)
Lemma hero_outer_tape (names : list string) :
  forall (k : nat) (pre live : list PyTensor) (h h' : scalar),
  (forall j nm g gc,
     nth_error names j = Some nm -> weight_filter nm = true ->
     nth_error pre (k + j) = Some (Some g) ->
     nth_error live (k + j) = Some (Some gc) ->
     Tensor.numel gc = Tensor.numel g) ->
  hero_outer k names pre live h = Py.Ok h' ->
  tape_of h' = tape_of h ++ curvature_tape_from k names pre live.
Proof.
  induction names as [|nm names IH]; intros k pre live h h' Hshape.
  - cbn [hero_outer curvature_tape_from]. intros [= <-].
    rewrite app_nil_r. reflexivity.
  - assert (Hrest : forall j nm' g gc,
              nth_error names j = Some nm' -> weight_filter nm' = true ->
              nth_error pre (S k + j) = Some (Some g) ->
              nth_error live (S k + j) = Some (Some gc) ->
              Tensor.numel gc = Tensor.numel g).
    { intros j nm' g gc Hn Hf Hp Hl.
      apply (Hshape (S j) nm' g gc); try assumption;
        rewrite Nat.add_succ_r; assumption. }
    cbn [hero_outer curvature_tape_from].
    destruct (weight_filter nm) eqn:Hf.
    + rewrite hero_inner_0, nth_error_combine.
      destruct (nth_error pre k) as [[g|]|] eqn:Hp;
        destruct (nth_error live k) as [[gc|]|] eqn:Hl;
        cbn [Py.rbind app];
        try (apply (IH (S k) pre live h h' Hrest)).
      assert (Hs : Tensor.numel gc = Tensor.numel g).
      { apply (Hshape 0%nat nm g gc); try reflexivity; try assumption;
          rewrite Nat.add_0_r; assumption. }
      rewrite (hero_add_cotangent h k gc g Hs). cbn [Py.rbind].
      intros H. rewrite (IH (S k) pre live _ h' Hrest H).
      cbn [tape_of]. rewrite <- app_assoc. reflexivity.
    + destruct (nth_error pre k) as [[g|]|];
        destruct (nth_error live k) as [[gc|]|];
        cbn [app]; apply (IH (S k) pre live h h' Hrest).
Qed.

Lemma hero_term_tape (names : list string) (pre live : list PyTensor)
  (h : scalar) :
  (forall i g gc, included names pre live i g gc ->
                  Tensor.numel gc = Tensor.numel g) ->
  hero_term names pre live = Py.Ok h ->
  item h = curvature_sum names pre live
  /\ tape_of h = curvature_tape names pre live.
Proof.
  intros Hshape H.
  destruct (hero_term_closed names pre live Hshape) as [h0 [E1 E2]].
  rewrite H in E1. injection E1 as <-. split; [exact E2|].
  apply (hero_outer_tape names 0 pre live (PyFloat 0) h); [|exact H].
  intros j nm g gc Hn Hf Hp Hl. apply (Hshape j).
  unfold included. split; [exists nm; split; assumption | split; assumption].
Qed.






Lemma hero_outer_agree (names : list string) :
  forall (k : nat) (pre live pre' live' : list PyTensor) (h : scalar),
  (forall j nm,
     nth_error names j = Some nm -> weight_filter nm = true ->
     nth_error pre' (k + j) = nth_error pre (k + j)
     /\ nth_error live' (k + j) = nth_error live (k + j)) ->
  hero_outer k names pre' live' h = hero_outer k names pre live h.
Proof.
  induction names as [|nm names IH]; intros k pre live pre' live' h Hag;
    [reflexivity|].
  assert (Hrest : forall j nm',
            nth_error names j = Some nm' -> weight_filter nm' = true ->
            nth_error pre' (S k + j) = nth_error pre (S k + j)
            /\ nth_error live' (S k + j) = nth_error live (S k + j)).
  { intros j nm' Hn Hf.
    replace (S k + j)%nat with (k + S j)%nat by lia.
    apply (Hag (S j) nm'); assumption. }
  cbn [hero_outer]. destruct (weight_filter nm) eqn:Hf.
  - rewrite !hero_inner_0, !nth_error_combine.
    destruct (Hag 0%nat nm eq_refl Hf) as [Ep El].
    rewrite Nat.add_0_r in Ep, El. rewrite Ep, El.
    match goal with
    | |- Py.rbind ?r _ = Py.rbind ?r _ => destruct r as [h1|e]
    end; cbn [Py.rbind]; [|reflexivity].
    apply IH. exact Hrest.
  - apply IH. exact Hrest.
Qed.

Lemma weight_filter_marker (nm : string) :
  contains "bias" nm = true \/ contains "bn" nm = true ->
  weight_filter nm = false.
Proof.
  unfold weight_filter. intros [H|H]; rewrite H; simpl;
    [reflexivity | apply andb_false_r].
Qed.

(** C8.  The curvature term does not look at the gradients of the
    parameters whose name contains ["bias"] or ["bn"]: replacing, in both
    snapshots, the entries of the parameters that fail the name filter by
    anything at all leaves the term (value, graph and raised error
    alike) unchanged; such a parameter contributes 0; and the value is
    the sum, over the parameters that pass the filter, of [lambda_hero]
    times the mean squared error of the live against the detached
    gradient. *)
Theorem hero_term_excludes_bias_bn (names : list string)
  (pre live pre' live' : list PyTensor) :
  (forall i nm,
     nth_error names i = Some nm -> weight_filter nm = true ->
     nth_error pre' i = nth_error pre i
     /\ nth_error live' i = nth_error live i) ->
  hero_term names pre' live' = hero_term names pre live
  /\ (forall i nm,
        nth_error names i = Some nm ->
        contains "bias" nm = true \/ contains "bn" nm = true ->
        contribution_from 0 names pre live i = 0
        /\ contribution_from 0 names pre' live' i = 0)
  /\ ((forall i g gc, included names pre live i g gc ->
                      Tensor.numel gc = Tensor.numel g) ->
      exists h,
        hero_term names pre live = Py.Ok h
        /\ item h = curvature_sum names pre live).
Proof.
  intros Hag. split; [|split].
  - unfold hero_term. apply hero_outer_agree. exact Hag.
  - intros i nm Hn Hm. apply weight_filter_marker in Hm.
    unfold contribution_from. rewrite Hn, Hm.
    split.
    + destruct (nth_error pre (0 + i)) as [[g|]|];
        destruct (nth_error live (0 + i)) as [[gc|]|]; reflexivity.
    + destruct (nth_error pre' (0 + i)) as [[g|]|];
        destruct (nth_error live' (0 + i)) as [[gc|]|]; reflexivity.
  - apply hero_term_closed.
Qed.

(** A weight, a bias and a batch-norm weight; the second pair of
    snapshots differs from the first in the bias and the batch-norm
    entries only. *)
Lemma hero_term_excludes_bias_bn_witness :
  hero_term ["mlp.weight"; "mlp.bias"; "bn1.weight"]%string
    [Some [1]; Some [7; 7]; None] [Some [2]; None; Some [0]]
  = hero_term ["mlp.weight"; "mlp.bias"; "bn1.weight"]%string
      [Some [1]; Some [1]; Some [4]] [Some [2]; Some [2]; Some [4]].
Proof.
  apply (hero_term_excludes_bias_bn
           ["mlp.weight"; "mlp.bias"; "bn1.weight"]%string
           [Some [1]; Some [1]; Some [4]] [Some [2]; Some [2]; Some [4]]
           [Some [1]; Some [7; 7]; None] [Some [2]; None; Some [0]]).
  intros i nm Hn Hf.
  destruct i as [|[|[|i]]]; simpl in Hn.
  - split; reflexivity.
  - injection Hn as <-. vm_compute in Hf. discriminate Hf.
  - injection Hn as <-. vm_compute in Hf. discriminate Hf.
  - destruct i; discriminate Hn.
Defined.

(** ** Loops over the parameters *)

Section ForEach.

Variable f : nat -> Param -> Py.result Param.

Lemma for_each_from_length (s : Store) :
  forall i r s', for_each_from f i s = (r, s') ->
                 List.length s' = List.length s.
Proof.
  induction s as [|p s IH]; intros i r s' H; simpl in H.
  - injection H as _ <-. reflexivity.
  - destruct (f i p) as [p'|e].
    + destruct (for_each_from f (S i) s) as [r1 s1] eqn:E.
      injection H as _ <-. simpl. f_equal. apply (IH _ _ _ E).
    + injection H as _ <-. reflexivity.
Qed.

(** After a run without exception every parameter is the body's result
    on the parameter that was there. *)
Lemma for_each_from_ok (s : Store) :
  forall i s', for_each_from f i s = (Py.Ok tt, s') ->
  forall k p', nth_error s' k = Some p' ->
  exists p, nth_error s k = Some p /\ f (i + k)%nat p = Py.Ok p'.
Proof.
  induction s as [|p s IH]; intros i s' H k p' Hk; simpl in H.
  - injection H as <-. destruct k; discriminate Hk.
  - destruct (f i p) as [p1|e] eqn:Ef; [|discriminate H].
    destruct (for_each_from f (S i) s) as [r1 s1] eqn:E.
    injection H as -> <-. destruct k as [|k]; simpl in Hk.
    + injection Hk as <-. exists p. rewrite Nat.add_0_r. split; [reflexivity | exact Ef].
    + destruct (IH _ _ E k p' Hk) as [q [Hq Hf]].
      exists q. split; [exact Hq|]. rewrite Nat.add_succ_r. exact Hf.
Qed.

(** A body that keeps a projection of every parameter keeps it on the
    whole store, whether or not the loop raises. *)
Lemma for_each_from_keeps {A} (proj : Param -> A) :
  (forall k p p', f k p = Py.Ok p' -> proj p' = proj p) ->
  forall s i r s', for_each_from f i s = (r, s') -> map proj s' = map proj s.
Proof.
  intros Hf. induction s as [|p s IH]; intros i r s' H; simpl in H.
  - injection H as _ <-. reflexivity.
  - destruct (f i p) as [p1|e] eqn:Ef.
    + destruct (for_each_from f (S i) s) as [r1 s1] eqn:E.
      injection H as _ <-. simpl. f_equal; [apply (Hf _ _ _ Ef) | apply (IH _ _ _ E)].
    + injection H as _ <-. reflexivity.
Qed.

End ForEach.

Lemma set_grad_None_cleared (p : Param) : grad p = None -> set_grad None p = p.
Proof. destruct p as [n d g]. simpl. intros ->. reflexivity. Qed.

Lemma accumulate_data (g : PyTensor) (p p' : Param) :
  accumulate g p = Py.Ok p' -> data p' = data p.
Proof.
  unfold accumulate. destruct g as [g|]; [|intros [= <-]; reflexivity].
  destruct (grad p) as [a|]; [|intros [= <-]; reflexivity].
  destruct (Tensor.iadd a g); simpl; [intros [= <-]; reflexivity | discriminate].
Qed.

Lemma accumulate_name (g : PyTensor) (p p' : Param) :
  accumulate g p = Py.Ok p' -> name p' = name p.
Proof.
  unfold accumulate. destruct g as [g|]; [|intros [= <-]; reflexivity].
  destruct (grad p) as [a|]; [|intros [= <-]; reflexivity].
  destruct (Tensor.iadd a g); simpl; [intros [= <-]; reflexivity | discriminate].
Qed.

Lemma backward_theta (dtheta : nat -> PyTensor) (s : Store)
  (r : Py.result unit) (s' : Store) :
  backward dtheta s = (r, s') -> theta s' = theta s.
Proof.
  apply (for_each_from_keeps _ data).
  intros k p p'. apply accumulate_data.
Qed.

Lemma backward_names (dtheta : nat -> PyTensor) (s : Store)
  (r : Py.result unit) (s' : Store) :
  backward dtheta s = (r, s') -> map name s' = map name s.
Proof.
  apply (for_each_from_keeps _ name).
  intros k p p'. apply accumulate_name.
Qed.

(** From cleared gradients [backward] cannot raise and leaves exactly
    the gradients autograd computed. *)
Lemma backward_from_cleared (dtheta : nat -> PyTensor) (s : Store) :
  forall i, cleared s ->
  for_each_from (fun i p => accumulate (dtheta i) p) i s
  = (Py.Ok tt, set_grads_from dtheta i s).
Proof.
  induction s as [|p s IH]; intros i Hc; simpl; [reflexivity|].
  inversion Hc as [|? ? Hp Hs]; subst.
  rewrite (IH (S i) Hs). unfold accumulate. rewrite Hp.
  destruct (dtheta i) as [g|]; [reflexivity|].
  rewrite (set_grad_None_cleared p Hp). reflexivity.
Qed.

Lemma backward_cleared (dtheta : nat -> PyTensor) (s : Store) :
  cleared s -> backward dtheta s = (Py.Ok tt, set_grads_from dtheta 0 s).
Proof. apply backward_from_cleared. Qed.

Lemma cleared_zero_grad (s : Store) : cleared (map (set_grad None) s).
Proof.
  unfold cleared. rewrite Forall_map. apply Forall_forall. reflexivity.
Qed.

Lemma theta_zero_grad (s : Store) : theta (map (set_grad None) s) = theta s.
Proof. unfold theta. rewrite map_map. reflexivity. Qed.

Lemma names_zero_grad (s : Store) :
  map name (map (set_grad None) s) = map name s.
Proof. rewrite map_map. reflexivity. Qed.

Lemma theta_set_grads_from (dtheta : nat -> PyTensor) (s : Store) :
  forall i, theta (set_grads_from dtheta i s) = theta s.
Proof.
  induction s as [|p s IH]; intros i; simpl; [reflexivity|].
  f_equal. apply IH.
Qed.

Lemma grads_set_grads_from (dtheta : nat -> PyTensor) (s : Store) :
  forall i, grads (set_grads_from dtheta i s)
            = map dtheta (seq i (List.length s)).
Proof.
  induction s as [|p s IH]; intros i; simpl; [reflexivity|].
  f_equal. apply IH.
Qed.

Lemma length_set_grads_from (dtheta : nat -> PyTensor) (s : Store) :
  forall i, List.length (set_grads_from dtheta i s) = List.length s.
Proof.
  induction s as [|p s IH]; intros i; simpl; [reflexivity|].
  f_equal. apply IH.
Qed.

Lemma nth_error_set_grads_from (dtheta : nat -> PyTensor) (s : Store) :
  forall i k p', nth_error (set_grads_from dtheta i s) k = Some p' ->
  exists p, nth_error s k = Some p /\ p' = set_grad (dtheta (i + k)%nat) p.
Proof.
  induction s as [|p s IH]; intros i k p' H; simpl in H.
  - destruct k; discriminate H.
  - destruct k as [|k]; simpl in H.
    + injection H as <-. exists p. rewrite Nat.add_0_r. split; reflexivity.
    + destruct (IH _ _ _ H) as [q [Hq ->]]. exists q.
      rewrite Nat.add_succ_r. split; [exact Hq | reflexivity].
Qed.

Lemma base_backward_eq (self : A2C) (th0 : list Tensor.t) (s : Store) :
  base_backward self th0 s
  = (Py.Ok tt,
     set_grads_from (grad_loss (policy self) th0) 0 (map (set_grad None) s)).
Proof.
  unfold base_backward, Py.bind, zero_grad, Py.modify.
  apply backward_cleared, cleared_zero_grad.
Qed.

(** ** SAM's first step *)

Lemma expand_spec (a b : Tensor.t) (n : nat) :
  Tensor.expand a n = Some b ->
  Tensor.numel b = n /\ (forall x, In x b -> In x a).
Proof.
  unfold Tensor.expand. destruct (Nat.eqb_spec (Tensor.numel a) n) as [E|E].
  - intros [= <-]. split; [exact E | auto].
  - destruct a as [|x [|y a]]; try discriminate.
    intros [= <-]. split.
    + apply repeat_length.
    + intros z Hz. apply repeat_spec in Hz. subst z. left. reflexivity.
Qed.

Lemma zip_with_plus_zero (d b : Tensor.t) :
  Tensor.numel b = Tensor.numel d -> (forall x, In x b -> x = 0) ->
  Tensor.zip_with Rplus d b = d.
Proof.
  revert b. induction d as [|x d IH]; intros [|y b] Hn Hz; simpl in *;
    try discriminate; try reflexivity.
  rewrite (Hz y) by (left; reflexivity). rewrite Rplus_0_r.
  f_equal. apply IH; [congruence | intros z Hin; apply Hz; right; exact Hin].
Qed.

Lemma zip_with_zero_plus (h g : Tensor.t) :
  Tensor.numel h = Tensor.numel g -> is_zero h ->
  Tensor.zip_with Rplus h g = g.
Proof.
  revert g. induction h as [|x h IH]; intros [|y g] Hn Hz; simpl in *;
    try discriminate; try reflexivity.
  inversion Hz as [|? ? Hx Hh]; subst. rewrite Rplus_0_l.
  f_equal. apply IH; [congruence | exact Hh].
Qed.

Lemma iadd_zero_r (d w d' : Tensor.t) :
  Tensor.iadd d (Tensor.muls w 0) = Py.Ok d' -> d' = d.
Proof.
  unfold Tensor.iadd.
  destruct (Tensor.expand (Tensor.muls w 0) (Tensor.numel d)) as [b|] eqn:E;
    [|discriminate].
  intros [= <-]. apply expand_spec in E. destruct E as [En Ein].
  apply zip_with_plus_zero; [exact En|].
  intros x Hx. apply Ein in Hx. unfold Tensor.muls in Hx.
  apply in_map_iff in Hx. destruct Hx as [y [<- _]]. ring.
Qed.

Lemma perturb_name (ad : bool) (scale : R) (p p' : Param) :
  match grad p with
  | None => Py.Ok p
  | Some g =>
      (w <~ (if ad then Tensor.mul g (Tensor.abs (data p)) else Py.Ok g) ;;
       d <~ Tensor.iadd (data p) (Tensor.muls w scale) ;;
       Py.Ok (set_data d p))%py
  end = Py.Ok p' ->
  name p' = name p.
Proof.
  destruct (grad p) as [g|] eqn:Eg; [|intros [= <-]; reflexivity].
  destruct (if ad then Tensor.mul g (Tensor.abs (data p)) else Py.Ok g)
    as [w|]; [|discriminate].
  cbn [Py.rbind].
  destruct (Tensor.iadd (data p) (Tensor.muls w scale)) as [d|];
    [|discriminate].
  cbn [Py.rbind]. intros [= <-]. reflexivity.
Qed.

Lemma perturb_zero (ad : bool) (p p' : Param) :
  match grad p with
  | None => Py.Ok p
  | Some g =>
      (w <~ (if ad then Tensor.mul g (Tensor.abs (data p)) else Py.Ok g) ;;
       d <~ Tensor.iadd (data p) (Tensor.muls w 0) ;;
       Py.Ok (set_data d p))%py
  end = Py.Ok p' ->
  data p' = data p.
Proof.
  destruct (grad p) as [g|] eqn:Eg; [|intros [= <-]; reflexivity].
  destruct (if ad then Tensor.mul g (Tensor.abs (data p)) else Py.Ok g)
    as [w|]; [|discriminate].
  cbn [Py.rbind].
  destruct (Tensor.iadd (data p) (Tensor.muls w 0)) as [d|] eqn:E;
    [|discriminate].
  cbn [Py.rbind]. intros [= <-]. simpl. apply (iadd_zero_r _ _ _ E).
Qed.

(** [first_step] never renames a parameter. *)
Lemma first_step_names (rho : R) (ad : bool) (s : Store)
  (r : Py.result (list Tensor.t)) (s1 : Store) :
  SAM.first_step rho ad s = (r, s1) -> map name s1 = map name s.
Proof.
  unfold SAM.first_step, Py.bind, Py.get, Py.lift, Py.ret, zero_grad, Py.modify.
  destruct (SAM.grad_norm ad s) as [n|e]; [|intros [= _ <-]; reflexivity].
  unfold for_each.
  match goal with
  | |- context [for_each_from ?f 0 s] =>
      destruct (for_each_from f 0 s) as [[[]|e] s2] eqn:E
  end.
  - intros [= _ <-]. rewrite names_zero_grad.
    apply (for_each_from_keeps _ name) in E; [exact E|].
    intros k p p' H. apply (perturb_name _ _ _ _ H).
  - intros [= _ <-].
    apply (for_each_from_keeps _ name) in E; [exact E|].
    intros k p p' H. apply (perturb_name _ _ _ _ H).
Qed.

(** When [first_step] returns, it returns the values it found, and all
    gradients are cleared. *)
Lemma first_step_ok (rho : R) (ad : bool) (s : Store)
  (old_p : list Tensor.t) (s1 : Store) :
  SAM.first_step rho ad s = (Py.Ok old_p, s1) ->
  old_p = theta s /\ cleared s1 /\ List.length s1 = List.length s.
Proof.
  unfold SAM.first_step, Py.bind, Py.get, Py.lift, Py.ret, zero_grad, Py.modify.
  destruct (SAM.grad_norm ad s) as [n|e]; [|discriminate].
  unfold for_each.
  match goal with
  | |- context [for_each_from ?f 0 s] =>
      destruct (for_each_from f 0 s) as [[[]|e] s2] eqn:E
  end; [|discriminate].
  intros [= <- <-]. split; [reflexivity|]. split.
  - apply cleared_zero_grad.
  - rewrite length_map. apply (for_each_from_length _ _ _ _ _ E).
Qed.

(** With [rho = 0] the displacement is zero: [first_step] leaves every
    parameter where it was, also when it raises. *)
Lemma first_step_zero_rho (ad : bool) (s : Store)
  (r : Py.result (list Tensor.t)) (s1 : Store) :
  SAM.first_step 0 ad s = (r, s1) -> theta s1 = theta s.
Proof.
  unfold SAM.first_step, Py.bind, Py.get, Py.lift, Py.ret, zero_grad, Py.modify.
  destruct (SAM.grad_norm ad s) as [n|e]; [|intros [= _ <-]; reflexivity].
  unfold for_each.
  replace (0 / (n + float_1e_12)) with 0 by (unfold Rdiv; ring).
  match goal with
  | |- context [for_each_from ?f 0 s] =>
      destruct (for_each_from f 0 s) as [[[]|e] s2] eqn:E
  end.
  - intros [= _ <-]. rewrite theta_zero_grad.
    apply (for_each_from_keeps _ data) in E; [exact E|].
    intros k p p' H. apply (perturb_zero _ _ _ H).
  - intros [= _ <-].
    apply (for_each_from_keeps _ data) in E; [exact E|].
    intros k p p' H. apply (perturb_zero _ _ _ H).
Qed.

(** ** The dispatch on [optimize_choice] *)

Lemma optimize_base_branch (self : A2C) (rb : RolloutBuffer)
  (th0 : list Tensor.t) (l : Losses) :
  strategy_of (optimize_choice self) = Base ->
  optimize self rb th0 l
  = (base_gradients self th0 ;;;
     Py.modify (optimizer_step (policy self)) ;;;
     Py.ret l)%py.
Proof.
  unfold strategy_of, optimize.
  destruct (String.eqb (optimize_choice self) "HERO"); [discriminate|].
  destruct (String.eqb (optimize_choice self) "SAM"); [discriminate|].
  reflexivity.
Qed.

Lemma optimize_sam_branch (self : A2C) (rb : RolloutBuffer)
  (th0 : list Tensor.t) (l : Losses) :
  strategy_of (optimize_choice self) = Sam ->
  optimize self rb th0 l
  = (r <- sam_gradients self rb th0 l ;;
     SAM.second_step (lr_schedule self 1) (fst r) ;;;
     Py.ret (snd r))%py.
Proof.
  unfold strategy_of, optimize.
  destruct (String.eqb (optimize_choice self) "HERO"); [discriminate|].
  destruct (String.eqb (optimize_choice self) "SAM"); [|discriminate].
  reflexivity.
Qed.

Lemma optimize_hero_branch (self : A2C) (rb : RolloutBuffer)
  (th0 : list Tensor.t) (l : Losses) :
  strategy_of (optimize_choice self) = Hero ->
  optimize self rb th0 l
  = (old_p <- hero_gradients self rb th0 ;;
     SAM.second_step (lr_schedule self 1) old_p ;;;
     Py.ret l)%py.
Proof.
  unfold strategy_of, optimize.
  destruct (String.eqb (optimize_choice self) "HERO"); [|
    destruct (String.eqb (optimize_choice self) "SAM"); discriminate].
  reflexivity.
Qed.

(** ** The HERO branch *)

Lemma detach_all_ok (gs l : list PyTensor) :
  detach_all gs = Py.Ok l -> l = gs /\ Forall (fun g => g <> None) gs.
Proof.
  revert l. induction gs as [|[g|] gs IH]; intros l H; simpl in H.
  - injection H as <-. split; [reflexivity | constructor].
  - destruct (detach_all gs) as [r|]; [|discriminate].
    simpl in H. injection H as <-.
    destruct (IH r eq_refl) as [-> Hall].
    split; [reflexivity | constructor; [discriminate | exact Hall]].
  - discriminate.
Qed.

Lemma autograd_grad_from_ok (dtheta : nat -> PyTensor) (n : nat) :
  forall i l, autograd_grad_from dtheta i n = Py.Ok l ->
  l = map dtheta (seq i n).
Proof.
  induction n as [|n IH]; intros i l H; simpl in H.
  - injection H as <-. reflexivity.
  - destruct (dtheta i) as [g|] eqn:Eg; [|discriminate].
    destruct (autograd_grad_from dtheta (S i) n) as [r|] eqn:E; [|discriminate].
    simpl in H. injection H as <-. simpl. rewrite Eg.
    f_equal. apply (IH _ _ E).
Qed.

Lemma nth_error_map_seq {A} (g : nat -> A) (i n k : nat) :
  (k < n)%nat -> nth_error (map g (seq i n)) k = Some (g (i + k)%nat).
Proof.
  intros Hk. rewrite nth_error_map.
  rewrite (nth_error_nth' (seq i n) 0%nat) by (rewrite length_seq; exact Hk).
  rewrite seq_nth by exact Hk. reflexivity.
Qed.

Lemma combine_grads_theta (copy : list PyTensor) (s : Store)
  (r : Py.result unit) (s' : Store) :
  combine_grads copy s = (r, s') -> theta s' = theta s.
Proof.
  apply (for_each_from_keeps _ data).
  intros k p p'. destruct (nth_error copy k) as [gc|]; [|intros [= <-]; reflexivity].
  destruct (grad p) as [a|]; [|discriminate].
  destruct gc as [g|]; [|discriminate].
  destruct (Tensor.iadd a g); simpl; [intros [= <-]; reflexivity | discriminate].
Qed.

(** After the combination loop every gradient is the gradient that was
    there plus the corresponding member of [loss_grads_copy]. *)
Lemma combine_grads_ok (copy : list PyTensor) (s s' : Store) :
  combine_grads copy s = (Py.Ok tt, s') ->
  forall k p' g, nth_error s' k = Some p' -> nth_error copy k = Some g ->
  exists p a gk a',
    nth_error s k = Some p /\ grad p = Some a /\ g = Some gk
    /\ Tensor.iadd a gk = Py.Ok a' /\ grad p' = Some a'.
Proof.
  intros H k p' g Hk Hg.
  destruct (for_each_from_ok _ _ _ _ H k p' Hk) as [p [Hp Hf]].
  simpl in Hf. rewrite Hg in Hf.
  destruct (grad p) as [a|] eqn:Ea; [|discriminate].
  destruct g as [gk|]; [|discriminate].
  destruct (Tensor.iadd a gk) as [a'|] eqn:Ei; [|discriminate].
  simpl in Hf. injection Hf as <-.
  exists p, a, gk, a'. repeat split; try assumption; reflexivity.
Qed.

Lemma hero_backward_theta (P : Policy) (th : list Tensor.t) (h : scalar)
  (s : Store) (r : Py.result unit) (s' : Store) :
  hero_backward P th h s = (r, s') -> theta s' = theta s.
Proof.
  destruct h as [x|x tape]; cbn [hero_backward].
  - intros [= _ <-]. reflexivity.
  - destruct (requires_grad P th tape (List.length s)).
    + apply backward_theta.
    + intros [= _ <-]. reflexivity.
Qed.

(** A curvature term whose graph reaches no parameter cannot be
    backpropagated. *)
Lemma hero_backward_no_graph (P : Policy) (th : list Tensor.t) (x : R)
  (tape : list (nat * Tensor.t)) (s : Store) :
  (forall i, grad_grad P th tape i = None) ->
  hero_backward P th (Scalar0 x tape) s = (Py.Raise Py.RuntimeError, s).
Proof.
  intros H. cbn [hero_backward].
  replace (requires_grad P th tape (List.length s)) with false; [reflexivity|].
  unfold requires_grad. generalize 0%nat.
  induction (List.length s) as [|n IH]; intros k; simpl; [reflexivity|].
  rewrite H. apply IH.
Qed.

(** The steps of a HERO pass that reaches [second_step]. *)
Lemma hero_gradients_inv (self : A2C) (rb : RolloutBuffer)
  (th0 : list Tensor.t) (s : Store) (old_p : list Tensor.t) (s' : Store) :
  hero_gradients self rb th0 s = (Py.Ok old_p, s') ->
  exists s_b s1 l_new hero_loss s_h,
    backward (grad_loss (policy self) th0) s = (Py.Ok tt, s_b)
    /\ Forall (fun g => g <> None) (grads s_b)
    /\ SAM.first_step (rho self) adaptive s_b = (Py.Ok old_p, s1)
    /\ forward self rb (theta s1) = Py.Ok l_new
    /\ Forall (fun g => g <> None)
         (map (grad_loss (policy self) (theta s1)) (seq 0 (List.length s1)))
    /\ hero_term (map name s1) (grads s_b)
         (map (grad_loss (policy self) (theta s1)) (seq 0 (List.length s1)))
       = Py.Ok hero_loss
    /\ hero_backward (policy self) (theta s1) hero_loss s1 = (Py.Ok tt, s_h)
    /\ combine_grads
         (map (grad_loss (policy self) (theta s1)) (seq 0 (List.length s1)))
         s_h
       = (Py.Ok tt, s').
Proof.
  unfold hero_gradients, Py.bind, Py.get, Py.lift, Py.ret.
  destruct (backward (grad_loss (policy self) th0) s) as [[[]|e] s_b] eqn:Eb;
    [|discriminate].
  destruct (detach_all (grads s_b)) as [lg|e] eqn:Ed; [|discriminate].
  destruct (detach_all_ok _ _ Ed) as [-> Hpre].
  destruct (SAM.first_step (rho self) adaptive s_b) as [[old|e] s1] eqn:Ef;
    [|discriminate].
  destruct (forward self rb (theta s1)) as [l_new|e] eqn:El; [|discriminate].
  unfold autograd_grad.
  destruct (autograd_grad_from (grad_loss (policy self) (theta s1)) 0
              (List.length s1)) as [lgn|e] eqn:Ea; [|discriminate].
  apply autograd_grad_from_ok in Ea. subst lgn.
  destruct (detach_all
              (map (grad_loss (policy self) (theta s1))
                 (seq 0 (List.length s1)))) as [copy|e] eqn:Ec; [|discriminate].
  destruct (detach_all_ok _ _ Ec) as [-> Hpost].
  destruct (hero_term (map name s1) (grads s_b)
              (map (grad_loss (policy self) (theta s1))
                 (seq 0 (List.length s1)))) as [hero_loss|e] eqn:Eh;
    [|discriminate].
  destruct (hero_backward (policy self) (theta s1) hero_loss s1)
    as [[[]|e] s_h] eqn:Ehb; [|discriminate].
  destruct (combine_grads
              (map (grad_loss (policy self) (theta s1))
                 (seq 0 (List.length s1))) s_h) as [[[]|e] s2] eqn:Ecg;
    [|discriminate].
  intros [= <- <-].
  exists s_b, s1, l_new, hero_loss, s_h. repeat split; assumption.
Qed.

(** What [hero_loss.backward()] leaves in the cleared store. *)
Lemma hero_backward_cleared (P : Policy) (th : list Tensor.t) (h : scalar)
  (s s' : Store) :
  cleared s -> hero_backward P th h s = (Py.Ok tt, s') ->
  s' = set_grads_from (grad_grad P th (tape_of h)) 0 s.
Proof.
  intros Hc. destruct h as [x|x tape]; cbn [hero_backward tape_of];
    [discriminate|].
  destruct (requires_grad P th tape (List.length s)); [|discriminate].
  rewrite (backward_cleared _ _ Hc). intros [= <-]. reflexivity.
Qed.

(** The gradient every parameter carries into [second_step] in the HERO
    branch. *)
Lemma hero_final_grad (self : A2C) (s1 s_h s' : Store) (hero_loss : scalar) :
  cleared s1 ->
  hero_backward (policy self) (theta s1) hero_loss s1 = (Py.Ok tt, s_h) ->
  combine_grads
    (map (grad_loss (policy self) (theta s1)) (seq 0 (List.length s1))) s_h
  = (Py.Ok tt, s') ->
  forall i p', nth_error s' i = Some p' ->
  exists h g1 a,
    grad_grad (policy self) (theta s1) (tape_of hero_loss) i = Some h
    /\ grad_loss (policy self) (theta s1) i = Some g1
    /\ Tensor.iadd h g1 = Py.Ok a
    /\ grad p' = Some a.
Proof.
  intros Hc Hb Hcg i p' Hi.
  pose proof (hero_backward_cleared _ _ _ _ _ Hc Hb) as ->.
  assert (Hlen : (i < List.length s1)%nat).
  { assert (Hl := for_each_from_length _ _ _ _ _ Hcg).
    assert (Hl2 : List.length
                    (set_grads_from
                       (grad_grad (policy self) (theta s1) (tape_of hero_loss))
                       0 s1) = List.length s1).
    { rewrite <- (length_map grad). fold (grads (set_grads_from
        (grad_grad (policy self) (theta s1) (tape_of hero_loss)) 0 s1)).
      rewrite grads_set_grads_from, length_map, length_seq. reflexivity. }
    rewrite <- Hl2, <- Hl. apply nth_error_Some. congruence. }
  destruct (combine_grads_ok _ _ _ Hcg i p' _ Hi
              (nth_error_map_seq _ 0 _ i Hlen))
    as [p [a [gk [a' [Hp [Ha [Hg [Hadd Hp']]]]]]]].
  destruct (nth_error_set_grads_from _ _ _ _ _ Hp) as [q [Hq ->]].
  simpl in Ha, Hg.
  exists a, gk, a'. repeat split; assumption.
Qed.

(** C1, as the code has it.  In a HERO pass that reaches the descent
    step, the gradient every parameter carries into [second_step] is the
    gradient of the curvature term plus the gradient of the loss at the
    perturbed point, the detached copy of [loss_grads_new]; the snapshot
    of the first pass only enters through the curvature term.  The
    parameters are still at the perturbed point, and the descent step is
    [second_step] run on that state. *)
Theorem hero_descent_gradient (self : A2C) (rb : RolloutBuffer)
  (th0 : list Tensor.t) (l : Losses) (s : Store) (old_p : list Tensor.t)
  (s' : Store) :
  hero_gradients self rb th0 s = (Py.Ok old_p, s') ->
  exists s_b s1 hero_loss,
    backward (grad_loss (policy self) th0) s = (Py.Ok tt, s_b)
    /\ SAM.first_step (rho self) adaptive s_b = (Py.Ok old_p, s1)
    /\ hero_term (map name s1) (grads s_b) (live_grads self s1)
       = Py.Ok hero_loss
    /\ theta s' = theta s1
    /\ (forall i p', nth_error s' i = Some p' ->
        exists h g1 a,
          grad_grad (policy self) (theta s1) (tape_of hero_loss) i = Some h
          /\ nth_error (live_grads self s1) i = Some (Some g1)
          /\ Tensor.iadd h g1 = Py.Ok a
          /\ grad p' = Some a)
    /\ (strategy_of (optimize_choice self) = Hero ->
        optimize self rb th0 l s
        = Py.bind (SAM.second_step (lr_schedule self 1) old_p)
            (fun _ => Py.ret l) s').
Proof.
  intros H.
  destruct (hero_gradients_inv _ _ _ _ _ _ H)
    as [s_b [s1 [l_new [hero_loss [s_h
          [Hb [Hpre [Hf [Hl [Hpost [Hh [Hhb Hcg]]]]]]]]]]]].
  destruct (first_step_ok _ _ _ _ _ Hf) as [_ [Hc _]].
  assert (Hlen : List.length s' = List.length s1).
  { rewrite (for_each_from_length _ _ _ _ _ Hcg).
    rewrite (hero_backward_cleared _ _ _ _ _ Hc Hhb).
    apply length_set_grads_from. }
  exists s_b, s1, hero_loss. repeat split; try assumption.
  - rewrite (combine_grads_theta _ _ _ _ Hcg).
    apply (hero_backward_theta _ _ _ _ _ _ Hhb).
  - intros i p' Hi.
    destruct (hero_final_grad self s1 s_h s' hero_loss Hc Hhb Hcg i p' Hi)
      as [h [g1 [a [Hgg [Hgl [Hadd Hg]]]]]].
    exists h, g1, a. repeat split; try assumption.
    unfold live_grads. rewrite nth_error_map_seq.
    + cbn [Nat.add]. rewrite Hgl. reflexivity.
    + rewrite <- Hlen. apply nth_error_Some. congruence.
  - intros Hc'. rewrite (optimize_hero_branch self rb th0 l Hc').
    unfold Py.bind at 1. rewrite H. reflexivity.
Qed.

(** ** The small agent, run *)

Lemma sqrt_eq_1 (x : R) : x = 1 -> sqrt x = 1.
Proof. intros ->. apply sqrt_1. Qed.

Lemma param_eq (n : string) (d d' : Tensor.t) (g g' : PyTensor) :
  d = d' -> g = g' -> mkParam n d g = mkParam n d' g'.
Proof. intros -> ->. reflexivity. Qed.

Lemma tensor1_eq (x y : R) : x = y -> [x] = [y].
Proof. intros ->. reflexivity. Qed.

Lemma tensor2_eq (x y x' y' : R) : x = x' -> y = y' -> [x; y] = [x'; y'].
Proof. intros -> ->. reflexivity. Qed.

Lemma some_tensor1_eq (x y : R) : x = y -> Some [x] = Some [y].
Proof. intros ->. reflexivity. Qed.

Lemma toy_scale_pos : 0 < Toy.scale.
Proof.
  unfold Toy.scale. pose proof float_1e_12_pos.
  apply Rdiv_lt_0_compat; lra.
Qed.

(** Equality of two stores that agree up to arithmetic in the elements. *)
Ltac store_eq :=
  repeat first
    [ reflexivity
    | apply (f_equal2 (@cons Param))
    | apply param_eq
    | apply tensor1_eq
    | apply tensor2_eq
    | apply some_tensor1_eq ].

(** Evaluation of a strategy on the small agent. *)
Ltac run_toy :=
  cbn; unfold Py.ret, set_grad, set_data; cbn;
  rewrite ?Rabs_R1, ?Rabs_R0;
  rewrite ?(sqrt_eq_1 _) by ring.

Lemma toy_backward :
  backward (grad_loss Toy.policy (theta Toy.store)) Toy.store
  = (Py.Ok tt,
     [mkParam "mlp.weight" [1] (Some [1]); mkParam "mlp.bias" [0] (Some [1])]).
Proof. run_toy. apply f_equal. store_eq; ring. Qed.

Lemma toy_first_step :
  SAM.first_step (1 / 20) true
    [mkParam "mlp.weight" [1] (Some [1]); mkParam "mlp.bias" [0] (Some [1])]
  = (Py.Ok [[1]; [0]],
     [mkParam "mlp.weight" [1 + Toy.scale] None; mkParam "mlp.bias" [0] None]).
Proof. run_toy. apply f_equal. unfold Toy.scale. store_eq; ring. Qed.

(** The HERO pass of the small agent: the weight moves to [1 + scale],
    the curvature term has gradient [2 * scale], and the gradient at the
    perturbed point is [1 + scale]. *)
Lemma toy_hero_gradients :
  hero_gradients (Toy.agent "HERO") Toy.rollout (theta Toy.store) Toy.store
  = (Py.Ok [[1]; [0]],
     [mkParam "mlp.weight" [1 + Toy.scale] (Some [1 + 3 * Toy.scale]);
      mkParam "mlp.bias" [0] (Some [1 + 3 * Toy.scale])]).
Proof.
  run_toy. unfold lambda_hero, Toy.scale. pose proof float_1e_12_pos.
  apply f_equal. store_eq; field; lra.
Qed.

(** The hypothesis of [hero_descent_gradient] holds for the small
    agent. *)
Lemma hero_descent_gradient_witness :
  exists s_b s1 hero_loss,
    backward (grad_loss (policy (Toy.agent "HERO")) (theta Toy.store))
      Toy.store = (Py.Ok tt, s_b)
    /\ SAM.first_step (rho (Toy.agent "HERO")) adaptive s_b
       = (Py.Ok [[1]; [0]], s1)
    /\ hero_term (map name s1) (grads s_b)
         (live_grads (Toy.agent "HERO") s1)
       = Py.Ok hero_loss
    /\ theta
         [mkParam "mlp.weight" [1 + Toy.scale] (Some [1 + 3 * Toy.scale]);
          mkParam "mlp.bias" [0] (Some [1 + 3 * Toy.scale])]
       = theta s1
    /\ (forall i p',
         nth_error
           [mkParam "mlp.weight" [1 + Toy.scale] (Some [1 + 3 * Toy.scale]);
            mkParam "mlp.bias" [0] (Some [1 + 3 * Toy.scale])] i
         = Some p' ->
         exists h g1 a,
           grad_grad (policy (Toy.agent "HERO")) (theta s1)
             (tape_of hero_loss) i = Some h
           /\ nth_error (live_grads (Toy.agent "HERO") s1) i
              = Some (Some g1)
           /\ Tensor.iadd h g1 = Py.Ok a
           /\ grad p' = Some a)
    /\ (strategy_of (optimize_choice (Toy.agent "HERO")) = Hero ->
        optimize (Toy.agent "HERO") Toy.rollout (theta Toy.store)
          (mkLosses 0 1 0 (1 / 2)) Toy.store
        = Py.bind
            (SAM.second_step (lr_schedule (Toy.agent "HERO") 1) [[1]; [0]])
            (fun _ => Py.ret (mkLosses 0 1 0 (1 / 2)))
            [mkParam "mlp.weight" [1 + Toy.scale]
               (Some [1 + 3 * Toy.scale]);
             mkParam "mlp.bias" [0] (Some [1 + 3 * Toy.scale])]).
Proof.
  apply (hero_descent_gradient (Toy.agent "HERO") Toy.rollout
           (theta Toy.store) (mkLosses 0 1 0 (1 / 2)) Toy.store [[1]; [0]]).
  exact toy_hero_gradients.
Defined.

(** C1, refuted as stated.  For the small agent the gradient that
    reaches the descent step is [1 + 3 * scale]; the gradient of the
    curvature term plus the snapshot of the first pass is
    [2 * scale + 1]. *)
Lemma hero_does_not_add_first_pass_snapshot :
  ~ combines_first_pass_snapshot (Toy.agent "HERO") Toy.rollout Toy.store.
Proof.
  intros H.
  destruct (H _ _ toy_hero_gradients)
    as [s_b [s1 [hl [Hb [Hf [Hh Hall]]]]]].
  change (policy (Toy.agent "HERO")) with Toy.policy in *.
  rewrite toy_backward in Hb. injection Hb as <-.
  change (rho (Toy.agent "HERO")) with (1 / 20) in Hf.
  change adaptive with true in Hf.
  rewrite toy_first_step in Hf. injection Hf as <-.
  cbn in Hh. injection Hh as <-.
  destruct (Hall 0%nat _ eq_refl) as [h [g0 [a [Hgg [Hg0 [Hadd Hgrad]]]]]].
  cbn in Hgg, Hg0, Hadd, Hgrad.
  injection Hgg as <-. injection Hg0 as <-. injection Hadd as <-.
  injection Hgrad as Hgrad.
  unfold lambda_hero in Hgrad. pose proof toy_scale_pos. lra.
Qed.

(** ** Clipping *)

Lemma sum_square_nonneg (a : Tensor.t) : 0 <= Tensor.sum (Tensor.square a).
Proof.
  induction a as [|x a IH]; simpl; [lra|].
  pose proof (Rle_0_sqr x) as Hx. unfold Rsqr in Hx. lra.
Qed.

Lemma sum_square_muls (a : Tensor.t) (c : R) :
  Tensor.sum (Tensor.square (Tensor.muls a c))
  = c * c * Tensor.sum (Tensor.square a).
Proof.
  unfold Tensor.square, Tensor.muls.
  induction a as [|x a IH]; simpl; [ring|].
  rewrite IH. ring.
Qed.

Lemma sum_sq_grads_nonneg (s : Store) : 0 <= sum_sq_grads s.
Proof.
  induction s as [|p s IH]; simpl; [lra|].
  destruct (grad p) as [g|]; [|exact IH].
  pose proof (sum_square_nonneg g). lra.
Qed.

Lemma sum_sq_grads_scale (c : R) (s : Store) :
  sum_sq_grads (scale_grads c s) = c * c * sum_sq_grads s.
Proof.
  induction s as [|p s IH]; simpl; [ring|].
  fold (scale_grads c s). rewrite IH.
  destruct (grad p) as [g|]; simpl; [|reflexivity].
  rewrite sum_square_muls. ring.
Qed.

Lemma total_norm_scale (c : R) (s : Store) :
  0 <= c -> total_norm (scale_grads c s) = c * total_norm s.
Proof.
  intros Hc. unfold total_norm. rewrite sum_sq_grads_scale.
  rewrite sqrt_mult by (try apply sum_sq_grads_nonneg; nra).
  rewrite sqrt_square by exact Hc. reflexivity.
Qed.

(** After [clip_grad_norm_] the global norm is at most [max_norm]. *)
Lemma clipped_norm_le (max_norm : R) (s : Store) :
  0 <= max_norm ->
  total_norm (scale_grads (clip_coef max_norm s) s) <= max_norm.
Proof.
  intros Hm.
  assert (Hn : 0 <= total_norm s) by apply sqrt_pos.
  pose proof float_1e_6_pos as He.
  assert (Hq : 0 <= max_norm / (total_norm s + float_1e_6)).
  { apply Rmult_le_pos; [exact Hm|].
    apply Rlt_le, Rinv_0_lt_compat. lra. }
  assert (Hc0 : 0 <= clip_coef max_norm s).
  { unfold clip_coef. apply Rmin_glb; lra. }
  rewrite total_norm_scale by exact Hc0.
  assert (Hc1 : clip_coef max_norm s
                <= max_norm / (total_norm s + float_1e_6))
    by apply Rmin_r.
  assert (Hqn : max_norm / (total_norm s + float_1e_6) * total_norm s
                <= max_norm).
  { replace (max_norm / (total_norm s + float_1e_6) * total_norm s)
      with (max_norm * (total_norm s / (total_norm s + float_1e_6)))
      by (field; lra).
    assert (total_norm s / (total_norm s + float_1e_6) <= 1).
    { unfold Rdiv.
      apply (Rmult_le_reg_r (total_norm s + float_1e_6)); [lra|].
      rewrite Rmult_assoc, Rinv_l by lra. lra. }
    nra. }
  nra.
Qed.

Lemma base_gradients_eq (self : A2C) (th0 : list Tensor.t) (s : Store) :
  base_gradients self th0 s
  = (Py.Ok tt,
     scale_grads
       (clip_coef (max_grad_norm self)
          (set_grads_from (grad_loss (policy self) th0) 0
             (map (set_grad None) s)))
       (set_grads_from (grad_loss (policy self) th0) 0
          (map (set_grad None) s))).
Proof.
  unfold base_gradients, Py.bind. rewrite base_backward_eq.
  reflexivity.
Qed.

(** The steps of a SAM pass that reaches [second_step]. *)
Lemma sam_gradients_inv (self : A2C) (rb : RolloutBuffer)
  (th0 : list Tensor.t) (l : Losses) (s : Store)
  (old_p : list Tensor.t) (l' : Losses) (s' : Store) :
  sam_gradients self rb th0 l s = (Py.Ok (old_p, l'), s') ->
  exists s_b s1 l_new,
    backward (grad_loss (policy self) th0) s = (Py.Ok tt, s_b)
    /\ SAM.first_step (rho self) adaptive s_b = (Py.Ok old_p, s1)
    /\ forward self rb (theta s1) = Py.Ok l_new
    /\ l' = mkLosses (policy_loss l) (value_loss l) (entropy_loss l)
              (loss l_new)
    /\ s' = set_grads_from (grad_loss (policy self) (theta s1)) 0 s1.
Proof.
  unfold sam_gradients, Py.bind, Py.get, Py.lift, Py.ret.
  destruct (backward (grad_loss (policy self) th0) s) as [[[]|e] s_b] eqn:Eb;
    [|discriminate].
  destruct (SAM.first_step (rho self) adaptive s_b) as [[old|e] s1] eqn:Ef;
    [|discriminate].
  destruct (forward self rb (theta s1)) as [l_new|e] eqn:El; [|discriminate].
  destruct (first_step_ok _ _ _ _ _ Ef) as [_ [Hc _]].
  rewrite (backward_cleared _ _ Hc).
  intros [= <- <- <-].
  exists s_b, s1, l_new. repeat split; try assumption; reflexivity.
Qed.

(** The gradients a SAM pass carries into [second_step] are those of
    the loss at the perturbed point, as autograd computed them. *)
Lemma sam_final_grads (self : A2C) (rb : RolloutBuffer)
  (th0 : list Tensor.t) (l : Losses) (s : Store)
  (old_p : list Tensor.t) (l' : Losses) (s' : Store) :
  sam_gradients self rb th0 l s = (Py.Ok (old_p, l'), s') ->
  grads s'
  = map (grad_loss (policy self) (theta s')) (seq 0 (List.length s')).
Proof.
  intros H.
  destruct (sam_gradients_inv _ _ _ _ _ _ _ _ H)
    as [s_b [s1 [l_new [_ [_ [_ [_ ->]]]]]]].
  rewrite grads_set_grads_from, theta_set_grads_from, length_set_grads_from.
  reflexivity.
Qed.


(** The gradients a HERO pass carries into [second_step]: for every
    parameter the gradient of the curvature term, computed on the
    snapshot of the first pass and the live gradients of the second,
    plus the gradient of the loss at the perturbed point. *)
Lemma hero_final_grads (self : A2C) (rb : RolloutBuffer)
  (th0 : list Tensor.t) (s : Store) (old_p : list Tensor.t) (s' : Store) :
  hero_gradients self rb th0 s = (Py.Ok old_p, s') ->
  exists s_b s1 hero_loss,
    backward (grad_loss (policy self) th0) s = (Py.Ok tt, s_b)
    /\ SAM.first_step (rho self) adaptive s_b = (Py.Ok old_p, s1)
    /\ hero_term (map name s1) (grads s_b) (live_grads self s1)
       = Py.Ok hero_loss
    /\ theta s' = theta s1
    /\ forall i p', nth_error s' i = Some p' ->
       exists h g1 a,
         grad_grad (policy self) (theta s') (tape_of hero_loss) i = Some h
         /\ grad_loss (policy self) (theta s') i = Some g1
         /\ Tensor.iadd h g1 = Py.Ok a
         /\ grad p' = Some a.
Proof.
  intros H.
  destruct (hero_gradients_inv _ _ _ _ _ _ H)
    as [s_b [s1 [l_new [hero_loss [s_h
          [Hb [Hpre [Hf [Hl [Hpost [Hh [Hhb Hcg]]]]]]]]]]]].
  assert (Hth : theta s' = theta s1).
  { rewrite (combine_grads_theta _ _ _ _ Hcg).
    apply (hero_backward_theta _ _ _ _ _ _ Hhb). }
  exists s_b, s1, hero_loss. repeat split; try assumption.
  rewrite Hth.
  destruct (first_step_ok _ _ _ _ _ Hf) as [_ [Hc _]].
  apply (hero_final_grad self s1 s_h s' hero_loss Hc Hhb Hcg).
Qed.

Lemma names_set_grads_from (dtheta : nat -> PyTensor) (s : Store) :
  forall i, map name (set_grads_from dtheta i s) = map name s.
Proof.
  induction s as [|p s IH]; intros i; simpl; [reflexivity|].
  f_equal. apply IH.
Qed.

Lemma theta_scale_grads (c : R) (s : Store) :
  theta (scale_grads c s) = theta s.
Proof. unfold theta, scale_grads. rewrite map_map. reflexivity. Qed.

Lemma grads_scale_grads (c : R) (s : Store) :
  grads (scale_grads c s)
  = map (option_map (fun g => Tensor.muls g c)) (grads s).
Proof. unfold grads, scale_grads. rewrite !map_map. reflexivity. Qed.

(** C2.  With [optimize_choice] one of ["base"], ["SAM"], ["HERO"], the
    branch that clips is taken if and only if [optimize_choice] is
    ["base"].  In that branch the update is one backward pass on the
    loss from cleared gradients (every parameter keeps its name and its
    value and carries exactly the gradient of the loss of the first pass,
    whatever gradient it had at entry), the clipping of the global
    gradient norm at [max_grad_norm] (every gradient is multiplied by
    [min(1, max_grad_norm / (norm + 1e-6))], after which the norm is at
    most [max_grad_norm]), and one step of the policy's optimiser.  In
    the SAM and HERO branches [max_grad_norm] is never read and the
    gradients handed to the descent step are unscaled: in SAM the
    gradient of the loss at the perturbed point, in HERO the gradient of
    the curvature term, computed on the snapshot of the first pass and
    the live gradients of the second, plus the gradient of the loss at
    the perturbed point. *)
Theorem clipping_only_in_base (self : A2C) (rb : RolloutBuffer)
  (th0 : list Tensor.t) (l : Losses) (s : Store) :
  In (optimize_choice self) ["base"; "SAM"; "HERO"]%string ->
  (strategy_of (optimize_choice self) = Base
   <-> optimize_choice self = "base"%string)
  /\ (strategy_of (optimize_choice self) = Base ->
      exists raw,
        base_backward self th0 s = (Py.Ok tt, raw)
        /\ map name raw = map name s
        /\ theta raw = theta s
        /\ grads raw
           = map (grad_loss (policy self) th0) (seq 0 (List.length s))
        /\ optimize self rb th0 l s
           = (Py.Ok l,
              optimizer_step (policy self)
                (scale_grads (clip_coef (max_grad_norm self) raw) raw))
        /\ map name (scale_grads (clip_coef (max_grad_norm self) raw) raw)
           = map name s
        /\ theta (scale_grads (clip_coef (max_grad_norm self) raw) raw)
           = theta s
        /\ grads (scale_grads (clip_coef (max_grad_norm self) raw) raw)
           = map (option_map
                    (fun g =>
                       Tensor.muls g
                         (Rmin 1
                            (max_grad_norm self
                             / (sqrt (sum_sq_grads raw) + float_1e_6)))))
               (grads raw)
        /\ (0 <= max_grad_norm self ->
            total_norm (scale_grads (clip_coef (max_grad_norm self) raw) raw)
            <= max_grad_norm self))
  /\ (strategy_of (optimize_choice self) = Sam ->
      (forall m,
         optimize (with_max_grad_norm m self) rb th0 l s
         = optimize self rb th0 l s)
      /\ forall old_p l' s',
           sam_gradients self rb th0 l s = (Py.Ok (old_p, l'), s') ->
           optimize self rb th0 l s
           = Py.bind (SAM.second_step (lr_schedule self 1) old_p)
               (fun _ => Py.ret l') s'
           /\ grads s'
              = map (grad_loss (policy self) (theta s'))
                  (seq 0 (List.length s'))
           /\ exists s_b s1,
                backward (grad_loss (policy self) th0) s = (Py.Ok tt, s_b)
                /\ SAM.first_step (rho self) adaptive s_b = (Py.Ok old_p, s1)
                /\ theta s' = theta s1
                /\ List.length s' = List.length s1)
  /\ (strategy_of (optimize_choice self) = Hero ->
      (forall m,
         optimize (with_max_grad_norm m self) rb th0 l s
         = optimize self rb th0 l s)
      /\ forall old_p s',
           hero_gradients self rb th0 s = (Py.Ok old_p, s') ->
           optimize self rb th0 l s
           = Py.bind (SAM.second_step (lr_schedule self 1) old_p)
               (fun _ => Py.ret l) s'
           /\ exists s_b s1 hero_loss,
                backward (grad_loss (policy self) th0) s = (Py.Ok tt, s_b)
                /\ SAM.first_step (rho self) adaptive s_b = (Py.Ok old_p, s1)
                /\ hero_term (map name s1) (grads s_b) (live_grads self s1)
                   = Py.Ok hero_loss
                /\ theta s' = theta s1
                /\ forall i p', nth_error s' i = Some p' ->
                   exists h g1 a,
                     grad_grad (policy self) (theta s')
                       (tape_of hero_loss) i = Some h
                     /\ grad_loss (policy self) (theta s') i = Some g1
                     /\ Tensor.iadd h g1 = Py.Ok a
                     /\ grad p' = Some a).
Proof.
  intros Hin. split; [|split; [|split]].
  - simpl in Hin. destruct Hin as [E|[E|[E|[]]]]; rewrite <- E;
      split; intros H; try reflexivity; discriminate H.
  - intros Hc. eexists. split; [apply base_backward_eq|].
    repeat match goal with |- _ /\ _ => split end.
    + rewrite names_set_grads_from. apply names_zero_grad.
    + rewrite theta_set_grads_from. apply theta_zero_grad.
    + rewrite grads_set_grads_from, length_map. reflexivity.
    + rewrite (optimize_base_branch self rb th0 l Hc).
      unfold Py.bind. rewrite base_gradients_eq. reflexivity.
    + unfold scale_grads. rewrite map_map. cbn [name set_grad].
      rewrite names_set_grads_from. apply names_zero_grad.
    + rewrite theta_scale_grads, theta_set_grads_from.
      apply theta_zero_grad.
    + apply grads_scale_grads.
    + apply clipped_norm_le.
  - intros Hc. split.
    + intros m.
      rewrite (optimize_sam_branch (with_max_grad_norm m self) rb th0 l Hc).
      rewrite (optimize_sam_branch self rb th0 l Hc). reflexivity.
    + intros old_p l' s' H. split; [|split].
      * rewrite (optimize_sam_branch self rb th0 l Hc).
        unfold Py.bind at 1. rewrite H. reflexivity.
      * apply (sam_final_grads _ _ _ _ _ _ _ _ H).
      * destruct (sam_gradients_inv _ _ _ _ _ _ _ _ H)
          as [s_b [s1 [l_new [Hb [Hf [_ [_ ->]]]]]]].
        exists s_b, s1. repeat split; try assumption.
        -- apply theta_set_grads_from.
        -- apply length_set_grads_from.
  - intros Hc. split.
    + intros m.
      rewrite (optimize_hero_branch (with_max_grad_norm m self) rb th0 l Hc).
      rewrite (optimize_hero_branch self rb th0 l Hc). reflexivity.
    + intros old_p s' H. split.
      * rewrite (optimize_hero_branch self rb th0 l Hc).
        unfold Py.bind at 1. rewrite H. reflexivity.
      * apply (hero_final_grads _ _ _ _ _ _ H).
Qed.

(** The small agent run with ["base"] from a store with stale
    gradients: the hypothesis holds, the clipping branch is the one
    taken, the backward pass leaves the gradient of the loss and nothing
    of the stale gradients, and the gradient handed to the optimiser has
    norm at most [max_grad_norm = 1/2]. *)
Lemma clipping_only_in_base_witness :
  (strategy_of (optimize_choice (Toy.agent "base")) = Base
   <-> optimize_choice (Toy.agent "base") = "base"%string)
  /\ exists raw,
       base_backward (Toy.agent "base") (theta Toy.store) Toy.store_stale
         = (Py.Ok tt, raw)
       /\ theta raw = [[1]; [0]]
       /\ grads raw = [Some [1 + 0]; Some [1 + 0]]
       /\ optimize (Toy.agent "base") Toy.rollout (theta Toy.store)
            (mkLosses 0 1 0 (1 / 2)) Toy.store_stale
          = (Py.Ok (mkLosses 0 1 0 (1 / 2)),
             optimizer_step (policy (Toy.agent "base"))
               (scale_grads
                  (clip_coef (max_grad_norm (Toy.agent "base")) raw) raw))
       /\ total_norm
            (scale_grads
               (clip_coef (max_grad_norm (Toy.agent "base")) raw) raw)
          <= max_grad_norm (Toy.agent "base").
Proof.
  destruct (clipping_only_in_base (Toy.agent "base") Toy.rollout
              (theta Toy.store) (mkLosses 0 1 0 (1 / 2)) Toy.store_stale
              (or_introl eq_refl))
    as [Hiff [Hbase _]].
  split; [exact Hiff|].
  destruct (Hbase eq_refl)
    as [raw [Hb [_ [Ht [Hg [Ho [_ [_ [_ Hn]]]]]]]]].
  exists raw. split; [exact Hb|]. split; [exact Ht|]. split; [exact Hg|].
  split; [exact Ho|].
  apply Hn. cbn. lra.
Defined.

(** ** The recorded metrics *)

(** Every branch leaves the three sub-losses of the first pass bound:
    the second pass of SAM rebinds [loss] only, that of HERO nothing. *)
Lemma optimize_keeps_sublosses (self : A2C) (rb : RolloutBuffer)
  (th0 : list Tensor.t) (l l' : Losses) (s s' : Store) :
  optimize self rb th0 l s = (Py.Ok l', s') ->
  policy_loss l' = policy_loss l
  /\ value_loss l' = value_loss l
  /\ entropy_loss l' = entropy_loss l.
Proof.
  destruct (strategy_of (optimize_choice self)) eqn:Hc.
  - rewrite (optimize_base_branch self rb th0 l Hc).
    unfold Py.bind, Py.modify, Py.ret.
    destruct (base_gradients self th0 s) as [[[]|e] s1]; [|discriminate].
    intros [= <- _]. repeat split.
  - rewrite (optimize_sam_branch self rb th0 l Hc).
    unfold Py.bind, Py.ret.
    destruct (sam_gradients self rb th0 l s) as [[[old l1]|e] s1] eqn:E;
      [|discriminate].
    destruct (SAM.second_step (lr_schedule self 1) (fst (old, l1)) s1)
      as [[[]|e] s2]; [|discriminate].
    intros [= <- _].
    destruct (sam_gradients_inv _ _ _ _ _ _ _ _ E)
      as [s_b [s1' [l_new [_ [_ [_ [-> _]]]]]]].
    repeat split.
  - rewrite (optimize_hero_branch self rb th0 l Hc).
    unfold Py.bind, Py.ret.
    destruct (hero_gradients self rb th0 s) as [[old|e] s1]; [|discriminate].
    destruct (SAM.second_step (lr_schedule self 1) old s1)
      as [[[]|e] s2]; [|discriminate].
    intros [= <- _]. repeat split.
Qed.

(** C10.  Whatever the strategy, a training step that completes records
    as [train/entropy_loss], [train/policy_loss] and [train/value_loss]
    (in the logger and in the wandb record) the sub-losses assembled in
    the first pass, at the parameter values the step was entered with;
    what SAM and HERO recompute at the perturbed point is not
    recorded. *)
Theorem recorded_losses_first_pass (self : A2C) (w w' : World) :
  train self w = (Py.Ok tt, w') ->
  exists l0,
    forward self (rollout_buffer self) (theta (parameters w)) = Py.Ok l0
    /\ logger w'
       = logger w
         ++ [("train/n_updates"%string, INR (S (n_updates w)));
             ("train/explained_variance"%string,
              explained_variance self (values (rollout_buffer self))
                (returns (rollout_buffer self)));
             ("train/entropy_loss"%string, entropy_loss l0);
             ("train/policy_loss"%string, policy_loss l0);
             ("train/value_loss"%string, value_loss l0)]
         ++ match log_std (parameters w') with
            | Some t => [("train/std"%string, Tensor.mean (map exp t))]
            | None => []
            end
    /\ wandb w'
       = wandb w
         ++ [[("train/entropy_loss"%string, entropy_loss l0);
              ("train/policy_loss"%string, policy_loss l0);
              ("train/value_loss"%string, value_loss l0)]].
Proof.
  unfold train, Py.bind, Py.gets, Py.lift, on_parameters.
  destruct (forward self (rollout_buffer self) (theta (parameters w)))
    as [l0|e] eqn:El; [|discriminate].
  destruct (optimize self (rollout_buffer self) (theta (parameters w)) l0
              (parameters w)) as [[l1|e] s1] eqn:Eo; [|discriminate].
  destruct (optimize_keeps_sublosses _ _ _ _ _ _ _ Eo) as [Hp [Hv He]].
  unfold log_metrics, logger_record, wandb_log,
    Py.bind, Py.modify, Py.gets, Py.ret.
  cbn [parameters n_updates logger wandb].
  rewrite Hp, Hv, He. intros H. exists l0. split; [reflexivity|].
  destruct (log_std s1) as [t|] eqn:Es; injection H as <-;
    cbn [parameters n_updates logger wandb]; rewrite Es;
    rewrite <- ?app_assoc; split; reflexivity.
Qed.

Lemma pair_eq (k : string) (x y : R) : x = y -> (k, x) = (k, y).
Proof. intros ->. reflexivity. Qed.

Lemma world_eq (s s' : Store) (n : nat) (lg lg' : list (string * R))
  (wb wb' : list (list (string * R))) :
  s = s' -> lg = lg' -> wb = wb' -> mkWorld s n lg wb = mkWorld s' n lg' wb'.
Proof. intros -> -> ->. reflexivity. Qed.

Ltac log_eq :=
  repeat first
    [ reflexivity
    | apply (f_equal2 (@cons (string * R)))
    | apply (f_equal2 (@cons (list (string * R))))
    | apply pair_eq ].

(** One SAM training step of the small agent. *)
Lemma toy_train_sam :
  train (Toy.agent "SAM") (Toy.world Toy.store)
  = (Py.Ok tt, Toy.world_after_sam).
Proof.
  cbn. unfold Py.ret, set_grad, set_data, Py.modify. cbn.
  rewrite ?Rabs_R1, ?Rabs_R0. rewrite ?(sqrt_eq_1 _) by ring.
  unfold Toy.world_after_sam, Toy.scale, Tensor.mean.
  pose proof float_1e_12_pos.
  apply f_equal. apply world_eq.
  - store_eq; simpl; field; lra.
  - log_eq; simpl; field.
  - log_eq; simpl; field.
Qed.

(** The value loss of the second pass of that step is not the one
    recorded. *)
Lemma toy_sam_second_pass :
  exists l1,
    forward (Toy.agent "SAM") Toy.rollout [[1 + Toy.scale]; [0]] = Py.Ok l1
    /\ value_loss l1 = (1 + Toy.scale) * (1 + Toy.scale)
    /\ value_loss l1 <> 1.
Proof.
  eexists. split; [reflexivity|]. cbn. unfold Tensor.mean. simpl.
  pose proof toy_scale_pos. split; [field | nra].
Qed.

(** The SAM step of the small agent completes, and records the losses
    of its first pass. *)
Lemma recorded_losses_first_pass_witness :
  exists l0,
    forward (Toy.agent "SAM") (rollout_buffer (Toy.agent "SAM"))
      (theta (parameters (Toy.world Toy.store))) = Py.Ok l0
    /\ logger Toy.world_after_sam
       = logger (Toy.world Toy.store)
         ++ [("train/n_updates"%string,
              INR (S (n_updates (Toy.world Toy.store))));
             ("train/explained_variance"%string,
              explained_variance (Toy.agent "SAM")
                (values (rollout_buffer (Toy.agent "SAM")))
                (returns (rollout_buffer (Toy.agent "SAM"))));
             ("train/entropy_loss"%string, entropy_loss l0);
             ("train/policy_loss"%string, policy_loss l0);
             ("train/value_loss"%string, value_loss l0)]
         ++ match log_std (parameters Toy.world_after_sam) with
            | Some t => [("train/std"%string, Tensor.mean (map exp t))]
            | None => []
            end
    /\ wandb Toy.world_after_sam
       = wandb (Toy.world Toy.store)
         ++ [[("train/entropy_loss"%string, entropy_loss l0);
              ("train/policy_loss"%string, policy_loss l0);
              ("train/value_loss"%string, value_loss l0)]].
Proof.
  apply (recorded_losses_first_pass (Toy.agent "SAM") (Toy.world Toy.store)
           Toy.world_after_sam).
  exact toy_train_sam.
Defined.

(** ** Zero perturbation radius *)

Lemma zip_with_minus_self (g : Tensor.t) :
  is_zero (Tensor.zip_with Rminus g g).
Proof.
  induction g as [|x g IH]; simpl; constructor; [ring | exact IH].
Qed.

Lemma is_zero_map (f : R -> R) (a : Tensor.t) :
  f 0 = 0 -> is_zero a -> is_zero (map f a).
Proof.
  intros Hf Ha. induction Ha as [|x a Hx Ha IH]; simpl; constructor;
    [subst x; exact Hf | exact IH].
Qed.

(** The curvature term of a gradient against itself sends zero
    back. *)
Lemma hero_add_self (h : scalar) (i : nat) (g : Tensor.t) :
  tape_zero (tape_of h) ->
  exists h', hero_add h i g g = Py.Ok h' /\ tape_zero (tape_of h').
Proof.
  intros Hz. unfold hero_add, Tensor.mse_loss, mse_loss_backward, Tensor.sub.
  rewrite (binop_same_shape Rminus g g eq_refl). cbn [Py.rbind].
  rewrite numel_zip_with by reflexivity. rewrite Nat.eqb_refl.
  eexists. split; [reflexivity|]. cbn [tape_of].
  unfold tape_zero. apply Forall_app. split; [exact Hz|].
  constructor; [|constructor]. cbn [snd]. unfold Tensor.muls.
  apply is_zero_map; [ring|].
  apply is_zero_map; [unfold Rdiv; ring | apply zip_with_minus_self].
Qed.

Lemma hero_outer_self (names : list string) :
  forall (k : nat) (pre : list PyTensor) (h h' : scalar),
  tape_zero (tape_of h) ->
  hero_outer k names pre pre h = Py.Ok h' -> tape_zero (tape_of h').
Proof.
  induction names as [|nm names IH]; intros k pre h h' Hz H; simpl in H.
  - injection H as <-. exact Hz.
  - destruct (weight_filter nm); [|apply (IH _ _ _ _ Hz H)].
    rewrite hero_inner_0, nth_error_combine in H.
    destruct (nth_error pre k) as [[g|]|]; cbn [Py.rbind] in H;
      try apply (IH _ _ _ _ Hz H).
    destruct (hero_add_self h k g Hz) as [h1 [E1 Hz1]].
    rewrite E1 in H. cbn [Py.rbind] in H. apply (IH _ _ _ _ Hz1 H).
Qed.

Lemma grads_zero_rho_sam (self : A2C) (rb : RolloutBuffer) (l : Losses)
  (s : Store) (old_p : list Tensor.t) (l' : Losses) (s' : Store) :
  rho self = 0 ->
  sam_gradients self rb (theta s) l s = (Py.Ok (old_p, l'), s') ->
  theta s' = theta s
  /\ grads s'
     = map (grad_loss (policy self) (theta s)) (seq 0 (List.length s)).
Proof.
  intros Hr H.
  destruct (sam_gradients_inv _ _ _ _ _ _ _ _ H)
    as [s_b [s1 [l_new [Hb [Hf [_ [_ ->]]]]]]].
  rewrite Hr in Hf.
  assert (Hth : theta s1 = theta s).
  { rewrite (first_step_zero_rho _ _ _ _ Hf). apply (backward_theta _ _ _ _ Hb). }
  assert (Hlen : List.length s1 = List.length s).
  { destruct (first_step_ok _ _ _ _ _ Hf) as [_ [_ ->]].
    apply (for_each_from_length _ _ _ _ _ Hb). }
  rewrite theta_set_grads_from, grads_set_grads_from, Hth, Hlen.
  split; reflexivity.
Qed.

Lemma grads_zero_rho_hero (self : A2C) (rb : RolloutBuffer)
  (s : Store) (old_p : list Tensor.t) (s' : Store) :
  rho self = 0 -> cleared s ->
  double_backward_linear (policy self) ->
  double_backward_shaped (policy self) ->
  hero_gradients self rb (theta s) s = (Py.Ok old_p, s') ->
  theta s' = theta s
  /\ grads s'
     = map (grad_loss (policy self) (theta s)) (seq 0 (List.length s)).
Proof.
  intros Hr Hc Hlin Hshape H.
  destruct (hero_gradients_inv _ _ _ _ _ _ H)
    as [s_b [s1 [l_new [hero_loss [s_h
          [Hb [Hpre [Hf [Hl [Hpost [Hh [Hhb Hcg]]]]]]]]]]]].
  rewrite (backward_cleared _ _ Hc) in Hb. injection Hb as <-.
  rewrite Hr in Hf.
  assert (Hth : theta s1 = theta s).
  { rewrite (first_step_zero_rho _ _ _ _ Hf). apply theta_set_grads_from. }
  destruct (first_step_ok _ _ _ _ _ Hf) as [_ [Hc1 Hlen]].
  rewrite length_set_grads_from in Hlen.
  assert (Hths : theta s' = theta s).
  { rewrite (combine_grads_theta _ _ _ _ Hcg).
    rewrite (hero_backward_theta _ _ _ _ _ _ Hhb). exact Hth. }
  split; [exact Hths|].
  rewrite grads_set_grads_from, Hth, Hlen in Hh.
  assert (Hz : tape_zero (tape_of hero_loss)).
  { assert (Hz0 : tape_zero (tape_of (PyFloat 0))) by constructor.
    unfold hero_term in Hh. apply (hero_outer_self _ _ _ _ _ Hz0 Hh). }
  assert (Hlen' : List.length s' = List.length s).
  { rewrite (for_each_from_length _ _ _ _ _ Hcg).
    rewrite (hero_backward_cleared _ _ _ _ _ Hc1 Hhb).
    rewrite length_set_grads_from. exact Hlen. }
  apply nth_error_ext. intros i.
  unfold grads. rewrite nth_error_map.
  destruct (nth_error s' i) as [p'|] eqn:Ei.
  - assert (Hi : (i < List.length s)%nat).
    { rewrite <- Hlen'. apply nth_error_Some. congruence. }
    rewrite (nth_error_map_seq _ 0 _ i Hi). cbn [option_map Nat.add].
    destruct (hero_final_grad self s1 s_h s' hero_loss Hc1 Hhb Hcg i p' Ei)
      as [h [g1 [a [Hgg [Hgl [Hadd Hg]]]]]].
    rewrite Hth in Hgg, Hgl.
    pose proof (Hlin _ _ _ _ Hz Hgg) as Hh0.
    pose proof (Hshape _ _ _ _ _ Hgg Hgl) as Hn.
    rewrite (iadd_same_shape _ _ Hn) in Hadd. injection Hadd as <-.
    rewrite (zip_with_zero_plus _ _ Hn Hh0) in Hg.
    rewrite Hg, Hgl. reflexivity.
  - cbn [option_map]. symmetry. apply nth_error_None.
    rewrite length_map, length_seq. rewrite <- Hlen'.
    apply nth_error_None. exact Ei.
Qed.

Lemma second_step_cleared (lr : R) (old_p : list Tensor.t) (s s' : Store) :
  SAM.second_step lr old_p s = (Py.Ok tt, s') -> cleared s'.
Proof.
  unfold SAM.second_step, Py.bind, Py.modify, zero_grad.
  destruct (sgd_step lr (SAM.restore old_p s)) as [[[]|e] s1];
    [|discriminate].
  intros [= <-]. apply cleared_zero_grad.
Qed.

(** A SAM or HERO step that completes leaves every gradient cleared, so
    the next step of the same agent starts from cleared gradients. *)
Lemma optimize_leaves_cleared (self : A2C) (rb : RolloutBuffer)
  (th0 : list Tensor.t) (l l' : Losses) (s s' : Store) :
  strategy_of (optimize_choice self) <> Base ->
  optimize self rb th0 l s = (Py.Ok l', s') -> cleared s'.
Proof.
  intros Hc. destruct (strategy_of (optimize_choice self)) eqn:E;
    [contradiction Hc; reflexivity| |].
  - rewrite (optimize_sam_branch self rb th0 l E). unfold Py.bind, Py.ret.
    destruct (sam_gradients self rb th0 l s) as [[[old l1]|e] s1];
      [|discriminate].
    destruct (SAM.second_step (lr_schedule self 1) (fst (old, l1)) s1)
      as [[[]|e] s2] eqn:E2; [|discriminate].
    intros [= _ <-]. apply (second_step_cleared _ _ _ _ E2).
  - rewrite (optimize_hero_branch self rb th0 l E). unfold Py.bind, Py.ret.
    destruct (hero_gradients self rb th0 s) as [[old|e] s1]; [|discriminate].
    destruct (SAM.second_step (lr_schedule self 1) old s1)
      as [[[]|e] s2] eqn:E2; [|discriminate].
    intros [= _ <-]. apply (second_step_cleared _ _ _ _ E2).
Qed.

(** C3.  With [rho = 0] the displacement applied by [first_step] is
    zero, and the gradients that drive the final descent step of SAM
    and of HERO are those the base path computes on the loss (its
    backward pass from cleared gradients, before clipping).  For HERO
    the pass starts from cleared gradients, which is how every completed
    SAM or HERO step leaves them, and double backward is linear and
    shape-preserving, as every autograd is. *)
Theorem zero_rho_base_gradient (self : A2C) (rb : RolloutBuffer)
  (l : Losses) (s : Store) :
  rho self = 0 ->
  exists s_base,
    base_backward self (theta s) s = (Py.Ok tt, s_base)
    /\ (forall s_b r s1,
          backward (grad_loss (policy self) (theta s)) s = (Py.Ok tt, s_b) ->
          SAM.first_step (rho self) adaptive s_b = (r, s1) ->
          theta s1 = theta s)
    /\ (forall old_p l' s',
          sam_gradients self rb (theta s) l s = (Py.Ok (old_p, l'), s') ->
          theta s' = theta s /\ grads s' = grads s_base)
    /\ (cleared s ->
        double_backward_linear (policy self) ->
        double_backward_shaped (policy self) ->
        forall old_p s',
          hero_gradients self rb (theta s) s = (Py.Ok old_p, s') ->
          theta s' = theta s /\ grads s' = grads s_base)
    /\ (strategy_of (optimize_choice self) <> Base ->
        forall l' s',
          optimize self rb (theta s) l s = (Py.Ok l', s') -> cleared s').
Proof.
  intros Hr. eexists. split; [apply base_backward_eq|].
  rewrite grads_set_grads_from, length_map.
  split; [|split; [|split]].
  - intros s_b r s1 Hb Hf. rewrite Hr in Hf.
    rewrite (first_step_zero_rho _ _ _ _ Hf).
    apply (backward_theta _ _ _ _ Hb).
  - intros old_p l' s' H. apply (grads_zero_rho_sam self rb l s _ _ _ Hr H).
  - intros Hc Hlin Hshape old_p s' H.
    apply (grads_zero_rho_hero self rb s _ _ Hr Hc Hlin Hshape H).
  - intros Hc l' s' H.
    apply (optimize_leaves_cleared self rb (theta s) l l' s s' Hc H).
Qed.

Lemma toy_cotangent_zero (tape : list (nat * Tensor.t)) (j : nat) :
  tape_zero tape -> Toy.cotangent tape j = 0.
Proof.
  intros H. induction H as [|[k c] tape Hc Ht IH]; simpl; [reflexivity|].
  rewrite IH. destruct (Nat.eqb k j); [|ring].
  cbn [snd] in Hc. destruct Hc as [|x c Hx _]; simpl; [ring | subst x; ring].
Qed.

Lemma toy_double_backward_linear : double_backward_linear Toy.policy.
Proof.
  intros th tape i h Hz. simpl. unfold Toy.grad_grad.
  rewrite !(toy_cotangent_zero _ _ Hz).
  destruct i as [|[|i]]; intros [= <-];
    constructor; [ring | constructor | ring | constructor].
Qed.

Lemma toy_double_backward_shaped : double_backward_shaped Toy.policy.
Proof.
  intros th tape i h g. simpl. unfold Toy.grad_grad, Toy.grad_loss.
  destruct i as [|[|i]]; intros [= <-] [= <-]; reflexivity.
Qed.

Lemma toy_cleared : cleared Toy.store.
Proof. repeat constructor. Qed.

(** The HERO and SAM passes of the small agent with [rho = 0]. *)
Lemma toy_hero_gradients_zero_rho :
  hero_gradients (Toy.agent0 "HERO") Toy.rollout (theta Toy.store) Toy.store
  = (Py.Ok [[1]; [0]],
     [mkParam "mlp.weight" [1] (Some [1]); mkParam "mlp.bias" [0] (Some [1])]).
Proof.
  run_toy. unfold lambda_hero. pose proof float_1e_12_pos.
  apply f_equal. store_eq; field; lra.
Qed.

Lemma toy_sam_gradients_zero_rho :
  sam_gradients (Toy.agent0 "HERO") Toy.rollout (theta Toy.store)
    (mkLosses 0 1 0 (1 / 2)) Toy.store
  = (Py.Ok ([[1]; [0]], mkLosses 0 1 0 (1 / 2)),
     [mkParam "mlp.weight" [1] (Some [1]); mkParam "mlp.bias" [0] (Some [1])]).
Proof.
  run_toy. unfold Tensor.mean. simpl. pose proof float_1e_12_pos.
  apply f_equal2.
  - do 2 f_equal. f_equal. field. lra.
  - store_eq; field; lra.
Qed.

(** With [rho = 0] both passes of the small agent complete, leave the
    parameters where they were, and carry the base path's gradient. *)
Lemma zero_rho_base_gradient_witness :
  exists s_base,
    base_backward (Toy.agent0 "HERO") (theta Toy.store) Toy.store
      = (Py.Ok tt, s_base)
    /\ (exists old_p l' s',
          sam_gradients (Toy.agent0 "HERO") Toy.rollout (theta Toy.store)
            (mkLosses 0 1 0 (1 / 2)) Toy.store = (Py.Ok (old_p, l'), s')
          /\ theta s' = theta Toy.store /\ grads s' = grads s_base)
    /\ (exists old_p s',
          hero_gradients (Toy.agent0 "HERO") Toy.rollout (theta Toy.store)
            Toy.store = (Py.Ok old_p, s')
          /\ theta s' = theta Toy.store /\ grads s' = grads s_base).
Proof.
  destruct (zero_rho_base_gradient (Toy.agent0 "HERO") Toy.rollout
              (mkLosses 0 1 0 (1 / 2)) Toy.store eq_refl)
    as [s_base [Hb [_ [Hs [Hh _]]]]].
  exists s_base. split; [exact Hb|]. split.
  - eexists. eexists. eexists. split; [exact toy_sam_gradients_zero_rho|].
    apply (Hs _ _ _ toy_sam_gradients_zero_rho).
  - eexists. eexists. split; [exact toy_hero_gradients_zero_rho|].
    apply (Hh toy_cleared toy_double_backward_linear
             toy_double_backward_shaped _ _ toy_hero_gradients_zero_rho).
Defined.

(** ** Missing gradients *)

(** C5, at the failing input.  The loss of the small agent does not
    depend on ["aux.weight"], so that parameter has no gradient after
    the first backward pass.  The accumulation loop of lines 229-234
    would pass over such an entry, but the training step never gets
    there: taking the snapshot (line 189) raises AttributeError, and the
    step ends with the gradients of the first pass in place and nothing
    recorded. *)
Theorem hero_missing_gradient_raises :
  grad_loss Toy.policy (theta Toy.store_unused) 2 = None
  /\ train (Toy.agent "HERO") (Toy.world Toy.store_unused)
     = (Py.Raise Py.AttributeError,
        mkWorld
          [mkParam "mlp.weight" [1] (Some [1 + 0]);
           mkParam "mlp.bias" [0] (Some [1 + 0]);
           mkParam "aux.weight" [3] None] 0 [] [])
  /\ hero_term ["mlp.weight"; "mlp.bias"; "aux.weight"]%string
       [Some [1]; Some [1]; None] [Some [2]; Some [2]; None]
     = hero_term ["mlp.weight"; "mlp.bias"]%string
         [Some [1]; Some [1]] [Some [2]; Some [2]].
Proof.
  split; [reflexivity|]. split; reflexivity.
Qed.

(** ** Shape mismatch *)

Lemma binop_raises (f : R -> R -> R) (a b : Tensor.t) (e : Py.exn) :
  Tensor.binop f a b = Py.Raise e -> e = Py.RuntimeError.
Proof.
  unfold Tensor.binop.
  destruct (Tensor.broadcast_shape (Tensor.numel a) (Tensor.numel b)) as [n|];
    [|intros [= <-]; reflexivity].
  destruct (Tensor.expand a n); [destruct (Tensor.expand b n)|];
    try discriminate; intros [= <-]; reflexivity.
Qed.

Lemma binop_mismatch (f : R -> R -> R) (a b : Tensor.t) :
  Tensor.broadcast_shape (Tensor.numel a) (Tensor.numel b) = None ->
  Tensor.binop f a b = Py.Raise Py.RuntimeError.
Proof. intros H. unfold Tensor.binop. rewrite H. reflexivity. Qed.

(** The criterion raises nothing but torch's RuntimeError. *)
Lemma hero_add_raises (h : scalar) (i : nat) (gc g : Tensor.t) (e : Py.exn) :
  hero_add h i gc g = Py.Raise e -> e = Py.RuntimeError.
Proof.
  unfold hero_add, Tensor.mse_loss, mse_loss_backward, Tensor.sub.
  destruct (Tensor.binop Rminus gc g) as [d|e'] eqn:E; cbn [Py.rbind].
  - discriminate.
  - intros [= <-]. apply (binop_raises _ _ _ _ E).
Qed.

Lemma hero_add_mismatch (h : scalar) (i : nat) (gc g : Tensor.t) :
  Tensor.broadcast_shape (Tensor.numel gc) (Tensor.numel g) = None ->
  hero_add h i gc g = Py.Raise Py.RuntimeError.
Proof.
  intros H. unfold hero_add, Tensor.mse_loss, Tensor.sub.
  rewrite (binop_mismatch _ _ _ H). reflexivity.
Qed.

(** A pair of shapes that do not broadcast, at a parameter of the
    curvature term, makes the accumulation raise. *)
Lemma hero_outer_mismatch (names : list string) :
  forall (k : nat) (pre live : list PyTensor) (h : scalar) (j : nat)
         (nm : string) (g gc : Tensor.t),
  nth_error names j = Some nm -> weight_filter nm = true ->
  nth_error pre (k + j) = Some (Some g) ->
  nth_error live (k + j) = Some (Some gc) ->
  Tensor.broadcast_shape (Tensor.numel gc) (Tensor.numel g) = None ->
  hero_outer k names pre live h = Py.Raise Py.RuntimeError.
Proof.
  induction names as [|nm0 names IH];
    intros k pre live h j nm g gc Hn Hf Hp Hl Hb.
  - destruct j; discriminate Hn.
  - cbn [hero_outer]. destruct j as [|j].
    + injection Hn as ->. rewrite Hf. rewrite Nat.add_0_r in Hp, Hl.
      rewrite hero_inner_0, nth_error_combine, Hp, Hl.
      rewrite (hero_add_mismatch h k gc g Hb). reflexivity.
    + cbn [nth_error] in Hn. rewrite Nat.add_succ_r in Hp, Hl.
      destruct (weight_filter nm0).
      * rewrite hero_inner_0, nth_error_combine.
        destruct (nth_error pre k) as [[g0|]|];
          destruct (nth_error live k) as [[gc0|]|]; cbn [Py.rbind];
          try apply (IH (S k) pre live _ j nm g gc Hn Hf Hp Hl Hb).
        destruct (hero_add h k gc0 g0) as [h1|e] eqn:E; cbn [Py.rbind].
        -- apply (IH (S k) pre live _ j nm g gc Hn Hf Hp Hl Hb).
        -- rewrite (hero_add_raises _ _ _ _ _ E). reflexivity.
      * apply (IH (S k) pre live _ j nm g gc Hn Hf Hp Hl Hb).
Qed.

Lemma detach_all_total (gs : list PyTensor) :
  Forall (fun g => g <> None) gs -> detach_all gs = Py.Ok gs.
Proof.
  intros H. induction H as [|[g|] gs Hg Hgs IH]; simpl.
  - reflexivity.
  - rewrite IH. reflexivity.
  - contradiction Hg. reflexivity.
Qed.

Lemma autograd_grad_from_total (dtheta : nat -> PyTensor) (n : nat) :
  forall i, Forall (fun g => g <> None) (map dtheta (seq i n)) ->
  autograd_grad_from dtheta i n = Py.Ok (map dtheta (seq i n)).
Proof.
  induction n as [|n IH]; intros i H; simpl; [reflexivity|].
  simpl in H. inversion H as [|? ? Hg Hgs]; subst.
  destruct (dtheta i) as [g|]; [|contradiction Hg; reflexivity].
  rewrite (IH _ Hgs). reflexivity.
Qed.

(** A HERO step in which the criterion meets shapes that do not
    broadcast ends in the state [first_step] left. *)
Lemma hero_mismatch_state (self : A2C) (rb : RolloutBuffer) (l : Losses)
  (s s_b s1 : Store) (old_p : list Tensor.t) (l_new : Losses)
  (i : nat) (g gc : Tensor.t) :
  strategy_of (optimize_choice self) = Hero ->
  backward (grad_loss (policy self) (theta s)) s = (Py.Ok tt, s_b) ->
  Forall (fun g => g <> None) (grads s_b) ->
  SAM.first_step (rho self) adaptive s_b = (Py.Ok old_p, s1) ->
  forward self rb (theta s1) = Py.Ok l_new ->
  Forall (fun g => g <> None) (live_grads self s1) ->
  included (map name s1) (grads s_b) (live_grads self s1) i g gc ->
  Tensor.broadcast_shape (Tensor.numel gc) (Tensor.numel g) = None ->
  optimize self rb (theta s) l s = (Py.Raise Py.RuntimeError, s1).
Proof.
  intros Hc Hb Hpre Hf Hl Hpost [[nm [Hn Hw]] [Hp Hg]] Hmis.
  rewrite (optimize_hero_branch self rb (theta s) l Hc).
  unfold hero_gradients, Py.bind, Py.get, Py.lift, Py.ret.
  rewrite Hb, (detach_all_total _ Hpre), Hf, Hl.
  unfold autograd_grad. unfold live_grads in Hpost, Hg.
  rewrite (autograd_grad_from_total _ _ _ Hpost).
  rewrite (detach_all_total _ Hpost).
  unfold hero_term.
  rewrite (hero_outer_mismatch (map name s1) 0 _ _ (PyFloat 0) i nm g gc
             Hn Hw Hp Hg Hmis).
  reflexivity.
Qed.

(** C4, as the code has it.  When the stored snapshot and the live
    gradient of a parameter of the curvature term have shapes that do
    not broadcast, the HERO step terminates with torch's RuntimeError
    before [hero_loss.backward()], the combination of the gradients and
    [second_step]: no descent update is applied and every gradient is
    cleared, but the parameters are left as [first_step] moved them, at
    the perturbed point; their values at entry are in the state SAM
    saved and are not put back. *)
Theorem hero_mismatch_leaves_perturbed (self : A2C) (rb : RolloutBuffer)
  (l : Losses) (s s_b s1 : Store) (old_p : list Tensor.t) (l_new : Losses)
  (i : nat) (g gc : Tensor.t) :
  strategy_of (optimize_choice self) = Hero ->
  backward (grad_loss (policy self) (theta s)) s = (Py.Ok tt, s_b) ->
  Forall (fun g => g <> None) (grads s_b) ->
  SAM.first_step (rho self) adaptive s_b = (Py.Ok old_p, s1) ->
  forward self rb (theta s1) = Py.Ok l_new ->
  Forall (fun g => g <> None) (live_grads self s1) ->
  included (map name s1) (grads s_b) (live_grads self s1) i g gc ->
  Tensor.broadcast_shape (Tensor.numel gc) (Tensor.numel g) = None ->
  optimize self rb (theta s) l s = (Py.Raise Py.RuntimeError, s1)
  /\ cleared s1
  /\ old_p = theta s
  /\ map name s1 = map name s.
Proof.
  intros Hc Hb Hpre Hf Hl Hpost Hinc Hmis.
  split.
  - apply (hero_mismatch_state self rb l s s_b s1 old_p l_new i g gc);
      assumption.
  - destruct (first_step_ok _ _ _ _ _ Hf) as [Ho [Hcl _]].
    split; [exact Hcl|]. split.
    + rewrite Ho. apply (backward_theta _ _ _ _ Hb).
    + rewrite (first_step_names _ _ _ _ _ Hf).
      apply (backward_names _ _ _ _ Hb).
Qed.

(** The policy whose gradient changes shape, at the point of entry and
    at the perturbed point. *)
Lemma reshaped_entry :
  grad_loss (policy Toy.agent_reshaped) (theta Toy.store2) 0
  = Some [1 + 0; 0].
Proof.
  cbn. destruct (Req_dec_T 1 1) as [_|N];
    [reflexivity | contradiction N; reflexivity].
Qed.

Lemma reshaped_moved :
  grad_loss (policy Toy.agent_reshaped)
    (theta [mkParam "mlp.weight" [1 + Toy.scale; 0] None;
            mkParam "mlp.bias" [0] None]) 0
  = Some [1 + Toy.scale + 0; 0; 0].
Proof.
  cbn. destruct (Req_dec_T (1 + Toy.scale) 1) as [E|_]; [|reflexivity].
  pose proof toy_scale_pos. lra.
Qed.

Lemma toy2_cleared : cleared Toy.store2.
Proof. repeat constructor. Qed.

Lemma toy2_backward :
  backward (grad_loss (policy Toy.agent_reshaped) (theta Toy.store2))
    Toy.store2
  = (Py.Ok tt,
     [mkParam "mlp.weight" [1; 0] (Some [1 + 0; 0]);
      mkParam "mlp.bias" [0] (Some [1 + 0])]).
Proof.
  rewrite (backward_cleared _ _ toy2_cleared).
  unfold Toy.store2 at 2. cbn [set_grads_from].
  rewrite reshaped_entry. reflexivity.
Qed.

Lemma toy2_first_step :
  SAM.first_step (rho Toy.agent_reshaped) adaptive
    [mkParam "mlp.weight" [1; 0] (Some [1 + 0; 0]);
     mkParam "mlp.bias" [0] (Some [1 + 0])]
  = (Py.Ok [[1; 0]; [0]],
     [mkParam "mlp.weight" [1 + Toy.scale; 0] None;
      mkParam "mlp.bias" [0] None]).
Proof. run_toy. apply f_equal. unfold Toy.scale. store_eq; ring. Qed.

Lemma toy2_live :
  live_grads Toy.agent_reshaped
    [mkParam "mlp.weight" [1 + Toy.scale; 0] None;
     mkParam "mlp.bias" [0] None]
  = [Some [1 + Toy.scale + 0; 0; 0]; Some [1 + Toy.scale + 0]].
Proof.
  unfold live_grads. cbn [List.length seq map].
  rewrite reshaped_moved. reflexivity.
Qed.

Lemma toy2_included :
  included
    (map name [mkParam "mlp.weight" [1 + Toy.scale; 0] None;
               mkParam "mlp.bias" [0] None])
    (grads [mkParam "mlp.weight" [1; 0] (Some [1 + 0; 0]);
            mkParam "mlp.bias" [0] (Some [1 + 0])])
    (live_grads Toy.agent_reshaped
       [mkParam "mlp.weight" [1 + Toy.scale; 0] None;
        mkParam "mlp.bias" [0] None])
    0 [1 + 0; 0] [1 + Toy.scale + 0; 0; 0].
Proof.
  rewrite toy2_live. split; [|split; reflexivity].
  exists "mlp.weight"%string. split; reflexivity.
Qed.

Lemma toy2_live_present :
  Forall (fun g => g <> None)
    (live_grads Toy.agent_reshaped
       [mkParam "mlp.weight" [1 + Toy.scale; 0] None;
        mkParam "mlp.bias" [0] None]).
Proof. rewrite toy2_live. repeat constructor; discriminate. Qed.

Lemma toy2_snapshot_present :
  Forall (fun g => g <> None)
    (grads [mkParam "mlp.weight" [1; 0] (Some [1 + 0; 0]);
            mkParam "mlp.bias" [0] (Some [1 + 0])]).
Proof. repeat constructor; discriminate. Qed.

(** The step of that agent: the live gradient of the weight has three
    elements, the stored one two. *)
Lemma toy2_optimize :
  optimize Toy.agent_reshaped Toy.rollout (theta Toy.store2)
    (mkLosses 0 1 0 (1 / 2)) Toy.store2
  = (Py.Raise Py.RuntimeError,
     [mkParam "mlp.weight" [1 + Toy.scale; 0] None;
      mkParam "mlp.bias" [0] None]).
Proof.
  eapply (hero_mismatch_state Toy.agent_reshaped Toy.rollout _ Toy.store2
            _ _ _ _ 0 [1 + 0; 0] [1 + Toy.scale + 0; 0; 0]).
  - reflexivity.
  - exact toy2_backward.
  - exact toy2_snapshot_present.
  - exact toy2_first_step.
  - reflexivity.
  - exact toy2_live_present.
  - exact toy2_included.
  - reflexivity.
Qed.

(** The hypotheses of [hero_mismatch_leaves_perturbed] hold for the
    policy whose gradient changes shape. *)
Lemma hero_mismatch_leaves_perturbed_witness :
  optimize Toy.agent_reshaped Toy.rollout (theta Toy.store2)
    (mkLosses 0 1 0 (1 / 2)) Toy.store2
  = (Py.Raise Py.RuntimeError,
     [mkParam "mlp.weight" [1 + Toy.scale; 0] None;
      mkParam "mlp.bias" [0] None])
  /\ cleared [mkParam "mlp.weight" [1 + Toy.scale; 0] None;
              mkParam "mlp.bias" [0] None]
  /\ [[1; 0]; [0]] = theta Toy.store2
  /\ map name [mkParam "mlp.weight" [1 + Toy.scale; 0] None;
               mkParam "mlp.bias" [0] None]
     = map name Toy.store2.
Proof.
  apply (hero_mismatch_leaves_perturbed Toy.agent_reshaped Toy.rollout
           (mkLosses 0 1 0 (1 / 2)) Toy.store2
           [mkParam "mlp.weight" [1; 0] (Some [1 + 0; 0]);
            mkParam "mlp.bias" [0] (Some [1 + 0])]
           [mkParam "mlp.weight" [1 + Toy.scale; 0] None;
            mkParam "mlp.bias" [0] None]
           [[1; 0]; [0]]
           (mkLosses (- Tensor.mean [1 * 0])
              (Tensor.mean
                 [(0 - ((1 + Toy.scale) * 1 + 0))
                  * (0 - ((1 + Toy.scale) * 1 + 0))])
              (- Tensor.mean [0])
              (- Tensor.mean [1 * 0] + 0 * - Tensor.mean [0]
               + 1 / 2
                 * Tensor.mean
                     [(0 - ((1 + Toy.scale) * 1 + 0))
                      * (0 - ((1 + Toy.scale) * 1 + 0))]))
           0 [1 + 0; 0] [1 + Toy.scale + 0; 0; 0]).
  - reflexivity.
  - exact toy2_backward.
  - exact toy2_snapshot_present.
  - exact toy2_first_step.
  - reflexivity.
  - exact toy2_live_present.
  - exact toy2_included.
  - reflexivity.
Defined.

(** C4, refuted as stated.  For the policy whose gradient changes shape
    the mismatch is there and the step does terminate with an error, but
    the weight is at [1 + scale], not at 1. *)
Lemma mismatch_abort_is_not_all_or_nothing :
  ~ mismatch_aborts_unchanged Toy.agent_reshaped Toy.rollout
      (mkLosses 0 1 0 (1 / 2)) Toy.store2.
Proof.
  intros H. destruct H as [e [s' [Ho Ht]]].
  - exists [mkParam "mlp.weight" [1; 0] (Some [1 + 0; 0]);
            mkParam "mlp.bias" [0] (Some [1 + 0])].
    exists [[1; 0]; [0]].
    exists [mkParam "mlp.weight" [1 + Toy.scale; 0] None;
            mkParam "mlp.bias" [0] None].
    exists 0%nat, [1 + 0; 0], [1 + Toy.scale + 0; 0; 0].
    split; [exact toy2_backward|]. split; [exact toy2_first_step|].
    split; [exact toy2_included|]. simpl. discriminate.
  - rewrite toy2_optimize in Ho. injection Ho as _ <-.
    cbn in Ht. injection Ht as Ht. pose proof toy_scale_pos. lra.
Qed.

(** * Further properties of the training step *)

(** ** The base branch *)

Lemma strategy_of_base (c : string) :
  strategy_of c = Base <-> c <> "HERO"%string /\ c <> "SAM"%string.
Proof.
  unfold strategy_of.
  destruct (String.eqb_spec c "HERO") as [E|E];
    [split; [discriminate | intros [H _]; contradiction]|].
  destruct (String.eqb_spec c "SAM") as [E'|E'];
    [split; [discriminate | intros [_ H]; contradiction]|].
  split; [intros _; split; assumption | reflexivity].
Qed.

(** X2.  [optimize_choice] is compared with ["HERO"] and ["SAM"]
    exactly and is never validated: with any other string, in whatever
    spelling, the step is the base step, clipping included. *)
Theorem unknown_choice_runs_base (self : A2C) (c : string)
  (rb : RolloutBuffer) (th0 : list Tensor.t) (l : Losses) (s : Store) :
  c <> "HERO"%string -> c <> "SAM"%string ->
  optimize (with_optimize_choice c self) rb th0 l s
  = optimize (with_optimize_choice "base" self) rb th0 l s.
Proof.
  intros H1 H2.
  rewrite (optimize_base_branch (with_optimize_choice c self) rb th0 l).
  - rewrite (optimize_base_branch (with_optimize_choice "base" self)
               rb th0 l eq_refl).
    reflexivity.
  - apply strategy_of_base. split; assumption.
Qed.

Lemma unknown_choice_runs_base_witness :
  optimize (with_optimize_choice "sam" (Toy.agent "SAM")) Toy.rollout
    (theta Toy.store) (mkLosses 0 1 0 (1 / 2)) Toy.store
  = optimize (with_optimize_choice "base" (Toy.agent "SAM")) Toy.rollout
      (theta Toy.store) (mkLosses 0 1 0 (1 / 2)) Toy.store.
Proof.
  apply (unknown_choice_runs_base (Toy.agent "SAM") "sam" Toy.rollout
           (theta Toy.store) (mkLosses 0 1 0 (1 / 2)) Toy.store);
    discriminate.
Defined.

Lemma zero_grad_same (s s' : Store) :
  theta s = theta s' -> map name s = map name s' ->
  map (set_grad None) s = map (set_grad None) s'.
Proof.
  revert s'. induction s as [|p s IH]; intros [|p' s'] Ht Hn;
    simpl in *; try discriminate; [reflexivity|].
  injection Ht as Hd Ht. injection Hn as Hnm Hn.
  unfold set_grad at 1 3. rewrite Hd, Hnm. f_equal. apply IH; assumption.
Qed.

(** X3.  The base step clears the gradients before its backward pass:
    two stores with the same parameter names and values give the same
    step, whatever gradients an earlier pass left in them. *)
Theorem base_ignores_entry_gradients (self : A2C) (rb : RolloutBuffer)
  (th0 : list Tensor.t) (l : Losses) (s s' : Store) :
  strategy_of (optimize_choice self) = Base ->
  theta s = theta s' -> map name s = map name s' ->
  optimize self rb th0 l s = optimize self rb th0 l s'.
Proof.
  intros Hc Ht Hn. rewrite (optimize_base_branch self rb th0 l Hc).
  unfold Py.bind. rewrite !base_gradients_eq.
  rewrite (zero_grad_same s s' Ht Hn). reflexivity.
Qed.

Lemma base_ignores_entry_gradients_witness :
  optimize (Toy.agent "base") Toy.rollout (theta Toy.store)
    (mkLosses 0 1 0 (1 / 2)) Toy.store_stale
  = optimize (Toy.agent "base") Toy.rollout (theta Toy.store)
      (mkLosses 0 1 0 (1 / 2)) Toy.store.
Proof.
  apply (base_ignores_entry_gradients (Toy.agent "base") Toy.rollout
           (theta Toy.store) (mkLosses 0 1 0 (1 / 2))
           Toy.store_stale Toy.store); reflexivity.
Defined.

Lemma muls_one (g : Tensor.t) : Tensor.muls g 1 = g.
Proof.
  unfold Tensor.muls. induction g as [|x g IH]; simpl; [reflexivity|].
  rewrite IH. f_equal. ring.
Qed.

Lemma scale_grads_one (s : Store) : scale_grads 1 s = s.
Proof.
  unfold scale_grads. induction s as [|[n d g] s IH]; simpl; [reflexivity|].
  rewrite IH. f_equal. unfold set_grad. simpl.
  destruct g as [g|]; simpl; [rewrite muls_one|]; reflexivity.
Qed.

Lemma clip_coef_below (max_norm : R) (s : Store) :
  total_norm s + float_1e_6 <= max_norm -> clip_coef max_norm s = 1.
Proof.
  intros H. unfold clip_coef.
  assert (Hn : 0 <= total_norm s) by apply sqrt_pos.
  pose proof float_1e_6_pos as He.
  apply Rmin_left.
  apply (Rmult_le_reg_r (total_norm s + float_1e_6)); [lra|].
  unfold Rdiv. rewrite Rmult_assoc, Rinv_l by lra. lra.
Qed.

(** X4.  In the base step, a gradient whose global norm is at most
    [max_grad_norm - 1e-6] reaches the optimiser exactly as autograd
    computed it: clipping only ever acts above the threshold. *)
Theorem base_unclipped_below_threshold (self : A2C) (rb : RolloutBuffer)
  (th0 : list Tensor.t) (l : Losses) (s raw : Store) :
  strategy_of (optimize_choice self) = Base ->
  base_backward self th0 s = (Py.Ok tt, raw) ->
  total_norm raw + float_1e_6 <= max_grad_norm self ->
  optimize self rb th0 l s = (Py.Ok l, optimizer_step (policy self) raw).
Proof.
  intros Hc Hb Hn. rewrite (optimize_base_branch self rb th0 l Hc).
  unfold Py.bind. rewrite base_gradients_eq.
  rewrite base_backward_eq in Hb. injection Hb as Hb. rewrite Hb.
  rewrite (clip_coef_below _ _ Hn), scale_grads_one. reflexivity.
Qed.

Lemma float_1e_6_val : float_1e_6 = 1 / 1000000.
Proof. unfold float_1e_6. simpl. field. Qed.

(** With [max_grad_norm = 2] the gradient of the small agent, of norm
    [sqrt 2], is handed over as it is. *)
Lemma base_unclipped_below_threshold_witness :
  optimize (with_max_grad_norm 2 (Toy.agent "base")) Toy.rollout
    (theta Toy.store) (mkLosses 0 1 0 (1 / 2)) Toy.store
  = (Py.Ok (mkLosses 0 1 0 (1 / 2)),
     optimizer_step (policy (with_max_grad_norm 2 (Toy.agent "base")))
       [mkParam "mlp.weight" [1] (Some [1 + 0]);
        mkParam "mlp.bias" [0] (Some [1 + 0])]).
Proof.
  apply (base_unclipped_below_threshold
           (with_max_grad_norm 2 (Toy.agent "base")) Toy.rollout
           (theta Toy.store) (mkLosses 0 1 0 (1 / 2)) Toy.store).
  - reflexivity.
  - reflexivity.
  - unfold total_norm. cbn [sum_sq_grads grad Tensor.square Tensor.sum map].
    cbn [max_grad_norm with_max_grad_norm]. rewrite float_1e_6_val.
    assert (H : sqrt ((1 + 0) * (1 + 0) + 0 + ((1 + 0) * (1 + 0) + 0 + 0))
                <= 3 / 2).
    { rewrite <- (sqrt_square (3 / 2)) by lra. apply sqrt_le_1; lra. }
    lra.
Defined.

(** ** HERO against SAM *)

(** The graph of the curvature term of the small agent: the bias is
    left out, the weight receives one cotangent. *)
Example toy_curvature_tape :
  curvature_tape ["mlp.weight"; "mlp.bias"]%string [Some [1]; Some [1]]
    [Some [1 + Toy.scale]; Some [1 + Toy.scale]]
  = [(0%nat, curvature_cotangent [1 + Toy.scale] [1])].
Proof. reflexivity. Qed.

(** X6.  The HERO branch is the SAM branch with one more term: when a
    HERO pass reaches the descent step, the SAM pass from the same state
    reaches it too, at the same perturbed point and with the same saved
    values, and for every parameter the gradient HERO descends with is
    the gradient SAM descends with plus the gradient of the curvature
    term.  The curvature term is the one computed on the snapshot of the
    first backward pass and the live gradients at the perturbed point;
    when these have the same shapes its value is the sum of
    [lambda_hero] times the mean squared errors and its graph sends
    [lambda_hero * 2 * (live - snapshot) / n] into the live gradient of
    every parameter that takes part. *)
Theorem hero_is_sam_plus_curvature (self : A2C) (rb : RolloutBuffer)
  (th0 : list Tensor.t) (l : Losses) (s : Store) (old_p : list Tensor.t)
  (s_h : Store) :
  hero_gradients self rb th0 s = (Py.Ok old_p, s_h) ->
  exists l' s_s s_b s1 hero_loss,
    sam_gradients self rb th0 l s = (Py.Ok (old_p, l'), s_s)
    /\ theta s_h = theta s_s
    /\ backward (grad_loss (policy self) th0) s = (Py.Ok tt, s_b)
    /\ SAM.first_step (rho self) adaptive s_b = (Py.Ok old_p, s1)
    /\ theta s_s = theta s1
    /\ hero_term (map name s1) (grads s_b) (live_grads self s1)
       = Py.Ok hero_loss
    /\ ((forall i g gc,
           included (map name s1) (grads s_b) (live_grads self s1) i g gc ->
           Tensor.numel gc = Tensor.numel g) ->
        item hero_loss
        = curvature_sum (map name s1) (grads s_b) (live_grads self s1)
        /\ tape_of hero_loss
           = curvature_tape (map name s1) (grads s_b) (live_grads self s1))
    /\ forall i p_h, nth_error s_h i = Some p_h ->
       exists p_s h g a,
         nth_error s_s i = Some p_s
         /\ grad p_s = Some g
         /\ grad_loss (policy self) (theta s_s) i = Some g
         /\ grad_grad (policy self) (theta s_s) (tape_of hero_loss) i = Some h
         /\ Tensor.iadd h g = Py.Ok a
         /\ grad p_h = Some a.
Proof.
  intros H.
  destruct (hero_gradients_inv _ _ _ _ _ _ H)
    as [s_b [s1 [l_new [hero_loss [s_hb
          [Hb [Hpre [Hf [Hl [Hpost [Hh [Hhb Hcg]]]]]]]]]]]].
  destruct (first_step_ok _ _ _ _ _ Hf) as [_ [Hc _]].
  assert (Hlen : List.length s_h = List.length s1).
  { rewrite (for_each_from_length _ _ _ _ _ Hcg).
    rewrite (hero_backward_cleared _ _ _ _ _ Hc Hhb).
    apply length_set_grads_from. }
  eexists. exists (set_grads_from (grad_loss (policy self) (theta s1)) 0 s1).
  exists s_b, s1, hero_loss.
  repeat match goal with |- _ /\ _ => split end.
  - unfold sam_gradients, Py.bind, Py.get, Py.lift, Py.ret.
    rewrite Hb, Hf, Hl, (backward_cleared _ _ Hc). reflexivity.
  - rewrite theta_set_grads_from.
    rewrite (combine_grads_theta _ _ _ _ Hcg).
    apply (hero_backward_theta _ _ _ _ _ _ Hhb).
  - exact Hb.
  - exact Hf.
  - apply theta_set_grads_from.
  - exact Hh.
  - intros Hshape. apply (hero_term_tape _ _ _ _ Hshape Hh).
  - intros i p_h Hi.
    rewrite theta_set_grads_from.
    destruct (hero_final_grad self s1 s_hb s_h hero_loss Hc Hhb Hcg i p_h Hi)
      as [h [g1 [a [Hgg [Hgl [Hadd Hg]]]]]].
    destruct (nth_error
                (set_grads_from (grad_loss (policy self) (theta s1)) 0 s1) i)
      as [p_s|] eqn:Es.
    + destruct (nth_error_set_grads_from _ _ _ _ _ Es) as [q [_ ->]].
      exists (set_grad (grad_loss (policy self) (theta s1) (0 + i)) q),
        h, g1, a.
      repeat split; assumption.
    + exfalso. apply nth_error_None in Es.
      rewrite length_set_grads_from, <- Hlen in Es.
      assert (i < List.length s_h)%nat by (apply nth_error_Some; congruence).
      lia.
Qed.

(** The small agent: the HERO pass completes, so does the SAM pass, and
    the two stores are related as stated. *)
Lemma hero_is_sam_plus_curvature_witness :
  exists l' s_s s_b s1 hero_loss,
    sam_gradients (Toy.agent "HERO") Toy.rollout (theta Toy.store)
      (mkLosses 0 1 0 (1 / 2)) Toy.store = (Py.Ok ([[1]; [0]], l'), s_s)
    /\ theta
         [mkParam "mlp.weight" [1 + Toy.scale] (Some [1 + 3 * Toy.scale]);
          mkParam "mlp.bias" [0] (Some [1 + 3 * Toy.scale])]
       = theta s_s
    /\ backward (grad_loss (policy (Toy.agent "HERO")) (theta Toy.store))
         Toy.store = (Py.Ok tt, s_b)
    /\ SAM.first_step (rho (Toy.agent "HERO")) adaptive s_b
       = (Py.Ok [[1]; [0]], s1)
    /\ theta s_s = theta s1
    /\ hero_term (map name s1) (grads s_b)
         (live_grads (Toy.agent "HERO") s1)
       = Py.Ok hero_loss
    /\ ((forall i g gc,
           included (map name s1) (grads s_b)
             (live_grads (Toy.agent "HERO") s1) i g gc ->
           Tensor.numel gc = Tensor.numel g) ->
        item hero_loss
        = curvature_sum (map name s1) (grads s_b)
            (live_grads (Toy.agent "HERO") s1)
        /\ tape_of hero_loss
           = curvature_tape (map name s1) (grads s_b)
               (live_grads (Toy.agent "HERO") s1))
    /\ forall i p_h,
         nth_error
           [mkParam "mlp.weight" [1 + Toy.scale]
              (Some [1 + 3 * Toy.scale]);
            mkParam "mlp.bias" [0] (Some [1 + 3 * Toy.scale])] i
         = Some p_h ->
       exists p_s h g a,
         nth_error s_s i = Some p_s
         /\ grad p_s = Some g
         /\ grad_loss (policy (Toy.agent "HERO")) (theta s_s) i = Some g
         /\ grad_grad (policy (Toy.agent "HERO")) (theta s_s)
              (tape_of hero_loss) i
            = Some h
         /\ Tensor.iadd h g = Py.Ok a
         /\ grad p_h = Some a.
Proof.
  apply (hero_is_sam_plus_curvature (Toy.agent "HERO") Toy.rollout
           (theta Toy.store) (mkLosses 0 1 0 (1 / 2)) Toy.store [[1]; [0]]).
  exact toy_hero_gradients.
Defined.

(** ** A model without weights *)

Lemma hero_outer_all_excluded (names : list string) :
  forall (k : nat) (pre live : list PyTensor) (h : scalar),
  (forall nm, In nm names -> weight_filter nm = false) ->
  hero_outer k names pre live h = Py.Ok h.
Proof.
  induction names as [|nm names IH]; intros k pre live h H;
    [reflexivity|].
  cbn [hero_outer]. rewrite (H nm) by (left; reflexivity).
  apply IH. intros nm' Hin. apply H. right. exact Hin.
Qed.

Lemma hero_never_completes_without_weights (self : A2C) (rb : RolloutBuffer)
  (th0 : list Tensor.t) (s : Store) (old_p : list Tensor.t) (s' : Store) :
  (forall nm, In nm (map name s) -> weight_filter nm = false) ->
  hero_gradients self rb th0 s <> (Py.Ok old_p, s').
Proof.
  intros Hall H.
  destruct (hero_gradients_inv _ _ _ _ _ _ H)
    as [s_b [s1 [l_new [hero_loss [s_h
          [Hb [Hpre [Hf [Hl [Hpost [Hh [Hhb Hcg]]]]]]]]]]]].
  unfold hero_term in Hh. rewrite hero_outer_all_excluded in Hh.
  - injection Hh as <-. discriminate Hhb.
  - rewrite (first_step_names _ _ _ _ _ Hf), (backward_names _ _ _ _ Hb).
    exact Hall.
Qed.

(** X7.  When no parameter name passes the filter (a model made of
    biases and batch-norm parameters only), [hero_loss] is still the
    Python float [0.] when [hero_loss.backward()] is reached: the HERO
    step never completes, and if nothing fails before that line it
    raises AttributeError there, with every parameter left at its
    perturbed value and every gradient cleared. *)
Theorem hero_without_weights_raises (self : A2C) (rb : RolloutBuffer)
  (l : Losses) (s : Store) :
  strategy_of (optimize_choice self) = Hero ->
  (forall nm, In nm (map name s) -> weight_filter nm = false) ->
  (forall l' s', optimize self rb (theta s) l s <> (Py.Ok l', s'))
  /\ (forall s_b s1 old_p l_new,
        backward (grad_loss (policy self) (theta s)) s = (Py.Ok tt, s_b) ->
        Forall (fun g => g <> None) (grads s_b) ->
        SAM.first_step (rho self) adaptive s_b = (Py.Ok old_p, s1) ->
        forward self rb (theta s1) = Py.Ok l_new ->
        Forall (fun g => g <> None) (live_grads self s1) ->
        optimize self rb (theta s) l s = (Py.Raise Py.AttributeError, s1)
        /\ cleared s1).
Proof.
  intros Hc Hall. split.
  - intros l' s'. rewrite (optimize_hero_branch self rb (theta s) l Hc).
    unfold Py.bind, Py.ret.
    destruct (hero_gradients self rb (theta s) s) as [[old|e] s1] eqn:E;
      [|discriminate].
    exfalso. apply (hero_never_completes_without_weights _ _ _ _ _ _ Hall E).
  - intros s_b s1 old_p l_new Hb Hpre Hf Hl Hpost. split.
    + rewrite (optimize_hero_branch self rb (theta s) l Hc).
      unfold hero_gradients, Py.bind, Py.get, Py.lift, Py.ret.
      rewrite Hb, (detach_all_total _ Hpre), Hf, Hl.
      unfold autograd_grad. unfold live_grads in Hpost.
      rewrite (autograd_grad_from_total _ _ _ Hpost).
      rewrite (detach_all_total _ Hpost).
      unfold hero_term. rewrite hero_outer_all_excluded.
      * reflexivity.
      * rewrite (first_step_names _ _ _ _ _ Hf), (backward_names _ _ _ _ Hb).
        exact Hall.
    + destruct (first_step_ok _ _ _ _ _ Hf) as [_ [Hcl _]]. exact Hcl.
Qed.

Lemma toy_biases_excluded :
  forall nm, In nm (map name Toy.store_biases) -> weight_filter nm = false.
Proof.
  intros nm [<-|[<-|[]]]; reflexivity.
Qed.

Lemma toy_biases_backward :
  backward (grad_loss (policy (Toy.agent "HERO")) (theta Toy.store_biases))
    Toy.store_biases
  = (Py.Ok tt,
     [mkParam "fc.bias" [1] (Some [1]); mkParam "bn1.weight" [0] (Some [1])]).
Proof. run_toy. apply f_equal. store_eq; ring. Qed.

Lemma toy_biases_first_step :
  SAM.first_step (rho (Toy.agent "HERO")) adaptive
    [mkParam "fc.bias" [1] (Some [1]); mkParam "bn1.weight" [0] (Some [1])]
  = (Py.Ok [[1]; [0]],
     [mkParam "fc.bias" [1 + Toy.scale] None;
      mkParam "bn1.weight" [0] None]).
Proof. run_toy. apply f_equal. unfold Toy.scale. store_eq; ring. Qed.

(** The HERO step of the model of a bias and a batch-norm weight. *)
Lemma hero_without_weights_raises_witness :
  optimize (Toy.agent "HERO") Toy.rollout (theta Toy.store_biases)
    (mkLosses 0 1 0 (1 / 2)) Toy.store_biases
  = (Py.Raise Py.AttributeError,
     [mkParam "fc.bias" [1 + Toy.scale] None;
      mkParam "bn1.weight" [0] None])
  /\ cleared [mkParam "fc.bias" [1 + Toy.scale] None;
              mkParam "bn1.weight" [0] None].
Proof.
  destruct (hero_without_weights_raises (Toy.agent "HERO") Toy.rollout
              (mkLosses 0 1 0 (1 / 2)) Toy.store_biases eq_refl
              toy_biases_excluded) as [_ H].
  eapply (H _ _ [[1]; [0]]).
  - exact toy_biases_backward.
  - repeat constructor; discriminate.
  - exact toy_biases_first_step.
  - reflexivity.
  - repeat constructor; discriminate.
Defined.

(** ** The name filter *)

Lemma prefix_spec (sub s : string) :
  String.prefix sub s = true <-> exists q, s = (sub ++ q)%string.
Proof.
  revert s. induction sub as [|a sub IH]; intros s.
  - split; [intros _; exists s; reflexivity | intros _; destruct s; reflexivity].
  - destruct s as [|b s]; simpl.
    + split; [discriminate | intros [q H]; discriminate H].
    + destruct (Ascii.ascii_dec a b) as [->|N].
      * rewrite IH. split; intros [q H]; exists q.
        -- rewrite H. reflexivity.
        -- injection H as H. exact H.
      * split; [discriminate|]. intros [q H]. injection H as H _.
        contradiction N. symmetry. exact H.
Qed.

(** [sub in s] holds exactly when [sub] occurs in [s]. *)
Lemma contains_spec (sub s : string) :
  contains sub s = true <-> exists p q, s = (p ++ sub ++ q)%string.
Proof.
  induction s as [|c s IH]; cbn [contains].
  - rewrite orb_false_r, prefix_spec. split.
    + intros [q H]. exists EmptyString, q. exact H.
    + intros [[|c p] [q H]]; [exists q; exact H | discriminate H].
  - rewrite orb_true_iff, prefix_spec, IH. split.
    + intros [[q H]|[p [q H]]].
      * exists EmptyString, q. exact H.
      * exists (String c p), q. simpl. rewrite H. reflexivity.
    + intros [[|c' p] [q H]].
      * left. exists q. exact H.
      * right. exists p, q. simpl in H. injection H as _ H. exact H.
Qed.

(** X8.  The name filter is a substring test, not a test on the role of
    the parameter: a parameter is left out of the curvature term
    exactly when ["bias"] or ["bn"] occurs anywhere in its name, so a
    weight whose name merely contains these letters (a layer called
    "subnet", say) is left out as well. *)
Theorem weight_filter_substring (nm : string) :
  weight_filter nm = false
  <-> (exists p q, nm = (p ++ "bias" ++ q)%string)
      \/ (exists p q, nm = (p ++ "bn" ++ q)%string).
Proof.
  unfold weight_filter.
  rewrite andb_false_iff, !negb_false_iff, !contains_spec. reflexivity.
Qed.

Example weight_filter_subnet : weight_filter "subnet.0.weight" = false.
Proof. reflexivity. Qed.

(** ** The constructor *)

Lemma dict_get_set_same (k : string) (v : PyObj) (d : dict) :
  dict_get k (dict_set k v d) = Some v.
Proof.
  induction d as [|[k' v'] d IH]; simpl.
  - rewrite String.eqb_refl. reflexivity.
  - destruct (String.eqb k k') eqn:E; simpl.
    + rewrite String.eqb_refl. reflexivity.
    + rewrite E. exact IH.
Qed.

Lemma dict_get_set_other (k k' : string) (v : PyObj) (d : dict) :
  k' <> k -> dict_get k' (dict_set k v d) = dict_get k' d.
Proof.
  intros Hne. induction d as [|[k0 v0] d IH]; simpl.
  - destruct (String.eqb_spec k' k); [contradiction | reflexivity].
  - destruct (String.eqb_spec k k0) as [->|Hk]; simpl.
    + destruct (String.eqb_spec k' k0); [contradiction | reflexivity].
    + destruct (String.eqb k' k0); [reflexivity | exact IH].
Qed.

(** X12.  The constructor never replaces an optimiser class the caller
    chose: with ["optimizer_class"] among the policy keywords, or with
    [use_rms_prop=False], the keywords are left as they are.  Otherwise
    the optimiser becomes RMSprop with [alpha=0.99], the given epsilon
    and no weight decay, which replaces any ["optimizer_kwargs"] the
    caller passed on their own; no other keyword is touched.  Running
    the preparation a second time changes nothing. *)
Theorem init_policy_kwargs_spec (use_rms_prop : bool) (rms_prop_eps : R)
  (policy_kwargs : dict) :
  (dict_mem "optimizer_class" policy_kwargs = true ->
   init_policy_kwargs use_rms_prop rms_prop_eps policy_kwargs
   = policy_kwargs)
  /\ (use_rms_prop = false ->
      init_policy_kwargs use_rms_prop rms_prop_eps policy_kwargs
      = policy_kwargs)
  /\ (use_rms_prop = true ->
      dict_mem "optimizer_class" policy_kwargs = false ->
      dict_get "optimizer_class"
        (init_policy_kwargs use_rms_prop rms_prop_eps policy_kwargs)
      = Some RMSprop
      /\ dict_get "optimizer_kwargs"
           (init_policy_kwargs use_rms_prop rms_prop_eps policy_kwargs)
         = Some (rms_prop_kwargs rms_prop_eps)
      /\ forall k,
           k <> "optimizer_class"%string -> k <> "optimizer_kwargs"%string ->
           dict_get k
             (init_policy_kwargs use_rms_prop rms_prop_eps policy_kwargs)
           = dict_get k policy_kwargs)
  /\ init_policy_kwargs use_rms_prop rms_prop_eps
       (init_policy_kwargs use_rms_prop rms_prop_eps policy_kwargs)
     = init_policy_kwargs use_rms_prop rms_prop_eps policy_kwargs.
Proof.
  assert (Hset : dict_get "optimizer_class"
                   (dict_set "optimizer_kwargs" (rms_prop_kwargs rms_prop_eps)
                      (dict_set "optimizer_class" RMSprop policy_kwargs))
                 = Some RMSprop).
  { rewrite dict_get_set_other by discriminate. apply dict_get_set_same. }
  split; [|split; [|split]].
  - intros H. unfold init_policy_kwargs. rewrite H.
    rewrite andb_false_r. reflexivity.
  - intros ->. reflexivity.
  - intros -> H. unfold init_policy_kwargs. rewrite H. cbn [andb negb].
    split; [exact Hset|]. split; [apply dict_get_set_same|].
    intros k H1 H2. rewrite !dict_get_set_other by assumption. reflexivity.
  - unfold init_policy_kwargs at 2 3.
    destruct (use_rms_prop && negb (dict_mem "optimizer_class" policy_kwargs))
      eqn:E.
    + unfold init_policy_kwargs, dict_mem. rewrite Hset.
      rewrite andb_false_r. reflexivity.
    + unfold init_policy_kwargs. rewrite E. reflexivity.
Qed.

(** Keywords with an [optimizer_kwargs] of the caller's but no
    [optimizer_class]: RMSprop is installed and the caller's
    [optimizer_kwargs] is replaced. *)
Lemma init_policy_kwargs_spec_witness :
  dict_get "optimizer_class"
    (init_policy_kwargs true (1 / 10 ^ 5)
       [("net_arch"%string, PyOpaque 1);
        ("optimizer_kwargs"%string, PyDict [("momentum"%string, 9 / 10)])])
  = Some RMSprop
  /\ dict_get "optimizer_kwargs"
       (init_policy_kwargs true (1 / 10 ^ 5)
          [("net_arch"%string, PyOpaque 1);
           ("optimizer_kwargs"%string, PyDict [("momentum"%string, 9 / 10)])])
     = Some (rms_prop_kwargs (1 / 10 ^ 5))
  /\ forall k,
       k <> "optimizer_class"%string -> k <> "optimizer_kwargs"%string ->
       dict_get k
         (init_policy_kwargs true (1 / 10 ^ 5)
            [("net_arch"%string, PyOpaque 1);
             ("optimizer_kwargs"%string,
              PyDict [("momentum"%string, 9 / 10)])])
       = dict_get k
           [("net_arch"%string, PyOpaque 1);
            ("optimizer_kwargs"%string,
             PyDict [("momentum"%string, 9 / 10)])].
Proof.
  apply (proj1 (proj2 (proj2
           (init_policy_kwargs_spec true (1 / 10 ^ 5)
              [("net_arch"%string, PyOpaque 1);
               ("optimizer_kwargs"%string,
                PyDict [("momentum"%string, 9 / 10)])]))));
    reflexivity.
Defined.
